(** * Devtriage: test-runner detection and focus selection

    A shallow embedding of [src/devtriage/runners.py] (the package module)
    and of the focus command of the legacy script [devtriage.py].

    Conventions of the model
    - Python [str] is [string]; a character is a code point below 256.
    - A Python exception is a value of [exn]; a computation that may raise
      has type [result A].  [try ... except Exception] is [try_except].
    - Paths follow [pathlib.PurePosixPath] (separator [/]), with the
      [suffix]/[stem] rule of Python 3.8 to 3.13.
    - The process environment (working directory contents, the outcome of
      [git diff --name-only HEAD]) is an explicit [world] value.
    - [Path.exists()] raises the errors of [os.stat] that do not say the
      file is absent; the paths where that happens belong to the [world].
    - [print] and [cmd_run] are recorded as events of a log. *)

From Stdlib Require Import String Ascii List Bool Arith ZArith Lia PrimFloat.
Import ListNotations.
Local Open Scope string_scope.
Local Open Scope list_scope.

Set Implicit Arguments.
Set Warnings "-register-all".

(* ------------------------------------------------------------------ *)
(** ** Exceptions *)

Inductive exn : Type :=
| AttributeError
| TypeError
| FileNotFoundError
| OSError
| JSONDecodeError
| UnicodeDecodeError
| OtherException (name : string).

Inductive result (A : Type) : Type :=
| Ok (a : A)
| Raise (e : exn).

Arguments Ok {A} a.
Arguments Raise {A} e.

Module ResultMonad.

Definition bind {A B : Type} (c : result A) (k : A -> result B) : result B :=
  match c with
  | Ok a => k a
  | Raise e => Raise e
  end.

(** [try: body  except Exception: handler]. *)
Definition try_except {A : Type} (body : result A) (handler : exn -> result A)
  : result A :=
  match body with
  | Ok a => Ok a
  | Raise e => handler e
  end.

Declare Scope result_scope.
Delimit Scope result_scope with result.
Notation "x <- c ;; k" := (bind c (fun x => k))
  (at level 61, c at next level, right associativity) : result_scope.

End ResultMonad.
Import ResultMonad.

(* ------------------------------------------------------------------ *)
(** ** Python strings *)

Module PyStr.

(** [needle in hay]. *)
Fixpoint contains (needle hay : string) : bool :=
  String.prefix needle hay
  || match hay with
     | EmptyString => false
     | String _ hay' => contains needle hay'
     end.

(** [s.startswith(p)]. *)
Definition startswith (s p : string) : bool := String.prefix p s.

Definition rev_string (s : string) : string :=
  string_of_list_ascii (rev (list_ascii_of_string s)).

(** [s.endswith(p)]. *)
Definition endswith (s p : string) : bool :=
  String.prefix (rev_string p) (rev_string s).

(** [sep.join(items)]. *)
Fixpoint join (sep : string) (items : list string) : string :=
  match items with
  | [] => ""
  | [x] => x
  | x :: rest => x ++ sep ++ join sep rest
  end.

(** [s.split(c)] for a one-character separator. *)
Fixpoint split (c : ascii) (s : string) : list string :=
  match s with
  | EmptyString => [""]
  | String a s' =>
      if Ascii.eqb a c then "" :: split c s'
      else match split c s' with
           | [] => [String a ""]
           | x :: rest => String a x :: rest
           end
  end.

(** [s.rfind(c)]: the index of the last occurrence of [c], if any. *)
Fixpoint rfind (c : ascii) (s : string) : option nat :=
  match s with
  | EmptyString => None
  | String a s' =>
      match rfind c s' with
      | Some i => Some (S i)
      | None => if Ascii.eqb a c then Some 0 else None
      end
  end.

(** [s[:i]] and [s[i:]]. *)
Fixpoint take (i : nat) (s : string) : string :=
  match i, s with
  | S i', String a s' => String a (take i' s')
  | _, _ => ""
  end.

Fixpoint drop (i : nat) (s : string) : string :=
  match i, s with
  | S i', String _ s' => drop i' s'
  | _, _ => s
  end.

(** Whitespace as [str.isspace] sees it, for code points below 256. *)
Definition isspace (a : ascii) : bool :=
  let n := nat_of_ascii a in
  (Nat.leb 9 n && Nat.leb n 13) || (Nat.leb 28 n && Nat.leb n 32)
  || Nat.eqb n 133 || Nat.eqb n 160.

Fixpoint lstrip (s : string) : string :=
  match s with
  | EmptyString => ""
  | String a s' => if isspace a then lstrip s' else s
  end.

(** [s.strip()]. *)
Definition strip (s : string) : string :=
  rev_string (lstrip (rev_string (lstrip s))).

(** Line boundaries of [str.splitlines], for code points below 256. *)
Definition is_linebreak (a : ascii) : bool :=
  let n := nat_of_ascii a in
  (Nat.leb 10 n && Nat.leb n 13) || (Nat.leb 28 n && Nat.leb n 30)
  || Nat.eqb n 133.

Definition is_cr (a : ascii) : bool := Nat.eqb (nat_of_ascii a) 13.
Definition is_lf (a : ascii) : bool := Nat.eqb (nat_of_ascii a) 10.

(** [cur] is the line being read, reversed; [after_cr] says that the
    previous character was a carriage return, so that a line feed coming
    next belongs to the same boundary. *)
Fixpoint splitlines_aux (after_cr : bool) (cur : list ascii) (s : string)
  : list string :=
  match s with
  | EmptyString =>
      match cur with
      | [] => []
      | _ => [string_of_list_ascii (rev cur)]
      end
  | String a s' =>
      if after_cr && is_lf a then splitlines_aux false cur s'
      else if is_linebreak a
           then string_of_list_ascii (rev cur) :: splitlines_aux (is_cr a) [] s'
           else splitlines_aux false (a :: cur) s'
  end.

(** [s.splitlines()]. *)
Definition splitlines (s : string) : list string := splitlines_aux false [] s.

(** [bool(s)]. *)
Definition truthy (s : string) : bool :=
  match s with
  | EmptyString => false
  | _ => true
  end.

End PyStr.

(* ------------------------------------------------------------------ *)
(** ** Python values, as [json.loads] returns them *)

Inductive pyval : Type :=
| PyNone
| PyBool (b : bool)
| PyInt (n : Z)
| PyFloat (x : float)
| PyString (s : string)
| PyList (items : list pyval)
| PyDict (entries : list (string * pyval)).

(** A [dict] with [str] keys: its entries in insertion order, keys distinct. *)
Definition pydict : Type := list (string * pyval).

Module PyDict.

(** [d.get(key)] with the entries of [d]. *)
Fixpoint lookup (key : string) (d : pydict) : option pyval :=
  match d with
  | [] => None
  | (k, v) :: d' => if String.eqb k key then Some v else lookup key d'
  end.

(** [key in d]. *)
Definition mem (key : string) (d : pydict) : bool :=
  match lookup key d with
  | Some _ => true
  | None => false
  end.

(** [d[key] = v]: an existing key keeps its position. *)
Fixpoint setitem (key : string) (v : pyval) (d : pydict) : pydict :=
  match d with
  | [] => [(key, v)]
  | (k, v0) :: d' =>
      if String.eqb k key then (k, v) :: d' else (k, v0) :: setitem key v d'
  end.

(** [d.update(other)]. *)
Definition update (d other : pydict) : pydict :=
  fold_left (fun acc kv => setitem (fst kv) (snd kv) acc) other d.

(** [list(d)] and [d.values()]. *)
Definition keys (d : pydict) : list string := map fst d.
Definition values (d : pydict) : list pyval := map snd d.

(** [dict.fromkeys(ks)]. *)
Definition fromkeys (ks : list string) : pydict :=
  fold_left (fun acc k => setitem k PyNone acc) ks [].

End PyDict.

(** [bool(v)]. *)
Definition truthy (v : pyval) : bool :=
  match v with
  | PyNone => false
  | PyBool b => b
  | PyInt n => negb (Z.eqb n 0)
  | PyFloat x => negb (PrimFloat.eqb x PrimFloat.zero)
  | PyString s => PyStr.truthy s
  | PyList items => match items with [] => false | _ => true end
  | PyDict entries => match entries with [] => false | _ => true end
  end.

(** [v.get(key)]: only a [dict] has the method. *)
Definition py_get (v : pyval) (key : string) : result pyval :=
  match v with
  | PyDict d => Ok (match PyDict.lookup key d with Some x => x | None => PyNone end)
  | _ => Raise AttributeError
  end.

(** [v or {}]. *)
Definition or_empty_dict (v : pyval) : pyval :=
  if truthy v then v else PyDict [].

(** The mapping unpacked by [**v] inside a dict display. *)
Definition as_mapping (v : pyval) : result pydict :=
  match v with
  | PyDict d => Ok d
  | _ => Raise TypeError
  end.

(** [v.values()]. *)
Definition py_values (v : pyval) : result (list pyval) :=
  match v with
  | PyDict d => Ok (PyDict.values d)
  | _ => Raise AttributeError
  end.

(** The items handed to [str.join] must all be [str]. *)
Fixpoint as_strings (vs : list pyval) : result (list string) :=
  match vs with
  | [] => Ok []
  | PyString s :: vs' =>
      match as_strings vs' with
      | Ok l => Ok (s :: l)
      | Raise e => Raise e
      end
  | _ :: _ => Raise TypeError
  end.

(** [sep.join(vs)]. *)
Definition py_join (sep : string) (vs : list pyval) : result string :=
  match as_strings vs with
  | Ok l => Ok (PyStr.join sep l)
  | Raise e => Raise e
  end.

(* ------------------------------------------------------------------ *)
(** ** Paths ([pathlib.PurePosixPath]) *)

(** A parsed path: the root ([""], ["/"] or ["//"]) and the components
    after it. *)
Record Path : Type := mkPath { path_root : string; path_tail : list string }.

Module PyPath.

Definition sep : ascii := "/"%char.

(** [posixpath.splitroot]: one leading slash, or three and more, give the
    root ["/"]; exactly two give ["//"]. *)
Definition splitroot (p : string) : string * string :=
  match p with
  | String a rest =>
      if Ascii.eqb a sep then
        match rest with
        | String b rest' =>
            if Ascii.eqb b sep then
              match rest' with
              | String c _ => if Ascii.eqb c sep then ("/", rest) else ("//", rest')
              | EmptyString => ("//", rest')
              end
            else ("/", rest)
        | EmptyString => ("/", rest)
        end
      else ("", p)
  | EmptyString => ("", p)
  end.

(** A component is kept when it is neither empty nor ["."]. *)
Definition keep_component (x : string) : bool :=
  PyStr.truthy x && negb (String.eqb x ".").

(** [Path(p)]. *)
Definition of_string (p : string) : Path :=
  let (root, rel) := splitroot p in
  mkPath root (filter keep_component (PyStr.split sep rel)).

(** [str(path)]. *)
Definition to_string (p : Path) : string :=
  match path_root p, path_tail p with
  | EmptyString, [] => "."
  | root, tail => root ++ PyStr.join "/" tail
  end.

(** [path.parts]. *)
Definition parts (p : Path) : list string :=
  match path_root p with
  | EmptyString => path_tail p
  | root => root :: path_tail p
  end.

(** [path.name]. *)
Definition name (p : Path) : string := last (path_tail p) "".

(** The index [i] of the last dot of the name when [0 < i < len(name) - 1]. *)
Definition suffix_index (p : Path) : option nat :=
  match PyStr.rfind "."%char (name p) with
  | Some i =>
      if Nat.ltb 0 i && Nat.ltb i (String.length (name p) - 1) then Some i
      else None
  | None => None
  end.

(** [path.suffix]. *)
Definition suffix (p : Path) : string :=
  match suffix_index p with
  | Some i => PyStr.drop i (name p)
  | None => ""
  end.

(** [path.stem]. *)
Definition stem (p : Path) : string :=
  match suffix_index p with
  | Some i => PyStr.take i (name p)
  | None => name p
  end.

(** [posixpath.join(a, b)]. *)
Definition posix_join (a b : string) : string :=
  if PyStr.startswith b "/" then b
  else if negb (PyStr.truthy a) || PyStr.endswith a "/" then a ++ b
  else a ++ "/" ++ b.

(** [path / segment]. *)
Definition joinpath (p : Path) (segment : string) : Path :=
  of_string (posix_join (to_string p) segment).

End PyPath.

(** [x in xs] for strings. *)
Definition str_in (x : string) (xs : list string) : bool :=
  existsb (String.eqb x) xs.

(* ------------------------------------------------------------------ *)
(** ** The environment of a run *)

(** What the working directory holds under a relative path. *)
Inductive node : Type :=
| Text (content : string)      (* a file that [read_text] returns *)
| Unreadable (e : exn).        (* exists, but [read_text] raises [e] *)

Record world : Type := mkEnv {
  (** [None]: [package.json] does not exist.  [Some r]: it exists and
      [json.loads(pkg_path.read_text())] evaluates to [r]. *)
  package_json_file : option (result pyval);
  (** the other entries of the working directory, by [str(path)] *)
  files : list (string * node);
  (** [run_cmd(["git", "diff", "--name-only", "HEAD"])] *)
  git_diff : result (Z * string * string);
  (** the paths, by [str(path)], on which [os.stat] fails with an error
      that [exists()] lets through (a name too long, a directory that may
      not be searched), and the error; these come before the entries above *)
  stat_errors : list (string * exn)
}.

(** An environment in which [os.stat] fails in no such way. *)
Definition mkWorld (pkg : option (result pyval)) (fs : list (string * node))
           (git : result (Z * string * string)) : world :=
  mkEnv pkg fs git [].

(** The error [exists()] raises on [p], if any. *)
Fixpoint stat_error_in (p : string) (errors : list (string * exn)) : option exn :=
  match errors with
  | [] => None
  | (q, e) :: errors' => if String.eqb q p then Some e else stat_error_in p errors'
  end.

Definition stat_error (w : world) (p : string) : option exn :=
  stat_error_in p (stat_errors w).

Fixpoint lookup_node (p : string) (fs : list (string * node)) : option node :=
  match fs with
  | [] => None
  | (q, n) :: fs' => if String.eqb q p then Some n else lookup_node p fs'
  end.

(** [path.exists()]: it lets through the errors of [os.stat] other than
    those that say the file is not there. *)
Definition path_exists (w : world) (p : Path) : result bool :=
  match stat_error w (PyPath.to_string p) with
  | Some e => Raise e
  | None =>
      match lookup_node (PyPath.to_string p) (files w) with
      | Some _ => Ok true
      | None => Ok false
      end
  end.

(** [path.read_text()]; what keeps [os.stat] from reaching the file keeps
    [open] from it too. *)
Definition read_text (w : world) (p : Path) : result string :=
  match stat_error w (PyPath.to_string p) with
  | Some e => Raise e
  | None =>
      match lookup_node (PyPath.to_string p) (files w) with
      | Some (Text s) => Ok s
      | Some (Unreadable e) => Raise e
      | None => Raise FileNotFoundError
      end
  end.

(* ------------------------------------------------------------------ *)
(** ** Runner detection ([runners.py], lines 11 to 64) *)

Local Open Scope result_scope.

Definition SUPPORTED_RUNNERS : list string := ["pytest"; "nose"; "jest"; "mocha"].
Definition PYTHON_TEST_EXTENSIONS : list string := [".py"].
Definition JS_TEST_EXTENSIONS : list string := [".js"; ".jsx"; ".ts"; ".tsx"].

(** [pkg_path.exists()] of line 18, outside the [try]. *)
Definition package_json_exists (w : world) : result bool :=
  match stat_error w "package.json" with
  | Some e => Raise e
  | None => Ok (match package_json_file w with Some _ => true | None => false end)
  end.

Definition read_package_json (w : world) : result pyval :=
  found <- package_json_exists w ;;
  if negb found then Ok (PyDict [])
  else
    match package_json_file w with
    | Some loaded => try_except loaded (fun _ => Ok (PyDict []))
    | None => Ok (PyDict [])
    end.

Definition file_contains (w : world) (path : Path) (needle : string)
  : result bool :=
  try_except
    (text <- read_text w path ;; Ok (PyStr.contains needle text))
    (fun _ => Ok false).

(** [package_json.get("scripts") or {}] *)
Definition manifest_scripts (package_json : pyval) : result pyval :=
  s <- py_get package_json "scripts" ;;
  Ok (or_empty_dict s).

(** [{**(package_json.get("dependencies") or {}),
      **(package_json.get("devDependencies") or {})}] *)
Definition merged_dependencies (package_json : pyval) : result pydict :=
  d1 <- py_get package_json "dependencies" ;;
  m1 <- as_mapping (or_empty_dict d1) ;;
  d2 <- py_get package_json "devDependencies" ;;
  m2 <- as_mapping (or_empty_dict d2) ;;
  Ok (PyDict.update (PyDict.update [] m1) m2).

(** [" ".join(scripts.values())] *)
Definition join_scripts (scripts : pyval) : result string :=
  vals <- py_values scripts ;;
  py_join " " vals.

Definition script_blob (package_json : pyval) : result string :=
  scripts <- manifest_scripts package_json ;;
  join_scripts scripts.

(** Lines 35 to 45: the runner the manifest gives evidence for, if any. *)
Definition manifest_runner (package_json : pyval) : result (option string) :=
  if truthy package_json then
    scripts <- manifest_scripts package_json ;;
    dependencies <- merged_dependencies package_json ;;
    script_blob <- join_scripts scripts ;;
    if PyDict.mem "jest" dependencies || PyStr.contains "jest" script_blob
    then Ok (Some "jest")
    else if PyDict.mem "mocha" dependencies || PyStr.contains "mocha" script_blob
    then Ok (Some "mocha")
    else Ok None
  else Ok None.

Definition pytest_markers : list Path :=
  map PyPath.of_string
      ["pytest.ini"; "conftest.py"; "tox.ini"; "setup.cfg"; "pyproject.toml"].

Definition nose_markers : list Path :=
  map PyPath.of_string ["nose.cfg"; "setup.cfg"; "tox.ini"].

(** Lines 53 to 59: the loop over [pytest_markers]; [Some r] is [return r]. *)
Fixpoint scan_pytest_markers (w : world) (markers : list Path)
  : result (option string) :=
  match markers with
  | [] => Ok None
  | marker :: rest =>
      found <- path_exists w marker ;;
      if (found : bool) then
        if str_in (PyPath.name marker) ["setup.cfg"; "tox.ini"; "pyproject.toml"]
        then
          hit <- file_contains w marker "pytest" ;;
          if (hit : bool) then Ok (Some "pytest") else scan_pytest_markers w rest
        else Ok (Some "pytest")
      else scan_pytest_markers w rest
  end.

(** Lines 61 to 63: the loop over [nose_markers]. *)
Fixpoint scan_nose_markers (w : world) (markers : list Path)
  : result (option string) :=
  match markers with
  | [] => Ok None
  | marker :: rest =>
      found <- path_exists w marker ;;
      if (found : bool) then
        hit <- file_contains w marker "nosetests" ;;
        if (hit : bool) then Ok (Some "nose") else scan_nose_markers w rest
      else scan_nose_markers w rest
  end.

Definition detect_test_runner (w : world) : result string :=
  package_json <- read_package_json w ;;
  from_manifest <- manifest_runner package_json ;;
  match from_manifest with
  | Some runner => Ok runner
  | None =>
      from_pytest <- scan_pytest_markers w pytest_markers ;;
      match from_pytest with
      | Some runner => Ok runner
      | None =>
          from_nose <- scan_nose_markers w nose_markers ;;
          match from_nose with
          | Some runner => Ok runner
          | None => Ok "pytest"
          end
      end
  end.

(* ------------------------------------------------------------------ *)
(** ** Changed files and their tests ([runners.py], lines 67 to 109) *)

Definition get_git_changed_files (w : world) : result (list Path) :=
  try_except
    (r <- git_diff w ;;
     let '(_, out, _) := r in
     Ok (map (fun line => PyPath.of_string (PyStr.strip line))
             (filter (fun line => PyStr.truthy (PyStr.strip line))
                     (PyStr.splitlines out))))
    (fun _ => Ok []).

(** ["tests" in file.parts or stem.startswith("test_") or stem.endswith("_test")] *)
Definition is_python_test (file : Path) : bool :=
  str_in "tests" (PyPath.parts file)
  || PyStr.startswith (PyPath.stem file) "test_"
  || PyStr.endswith (PyPath.stem file) "_test".

(** Lines 87 to 89: [tests] after the loop over [candidates]. *)
Fixpoint append_existing (w : world) (candidates : list Path) (tests : list string)
  : result (list string) :=
  match candidates with
  | [] => Ok tests
  | candidate :: rest =>
      found <- path_exists w candidate ;;
      if (found : bool)
      then append_existing w rest (tests ++ [PyPath.to_string candidate])
      else append_existing w rest tests
  end.

(** Lines 78 to 89: [tests] after the loop over [files]. *)
Fixpoint python_tests_loop (w : world) (files : list Path) (tests : list string)
  : result (list string) :=
  match files with
  | [] => Ok tests
  | file :: rest =>
      let stem := PyPath.stem file in
      if is_python_test file
      then python_tests_loop w rest (tests ++ [PyPath.to_string file])
      else
        let candidates :=
          [ PyPath.joinpath (PyPath.of_string "tests") ("test_" ++ stem ++ ".py");
            PyPath.joinpath (PyPath.of_string "tests") (stem ++ "_test.py") ] in
        tests' <- append_existing w candidates tests ;;
        python_tests_loop w rest tests'
  end.

(** Lines 76 to 89 for given changed files: the list [tests] before the
    final deduplication. *)
Definition collect_python_tests (w : world) (changed : list Path)
  : result (list string) :=
  let files :=
    filter (fun f => str_in (PyPath.suffix f) PYTHON_TEST_EXTENSIONS) changed in
  python_tests_loop w files [].

(** Lines 76 to 90 for given changed files (the spec's [map_python_tests]). *)
Definition map_python_tests (w : world) (changed : list Path)
  : result (list string) :=
  tests <- collect_python_tests w changed ;;
  Ok (PyDict.keys (PyDict.fromkeys tests)).

Definition find_changed_python_tests (w : world) : result (list string) :=
  changed <- get_git_changed_files w ;;
  map_python_tests w changed.

Definition is_js_test (file : Path) : bool :=
  PyStr.contains ".test." (PyPath.name file)
  || PyStr.startswith (PyPath.stem file) "test_"
  || PyStr.endswith (PyPath.stem file) "_test"
  || str_in "__tests__" (PyPath.parts file)
  || str_in "tests" (PyPath.parts file).

(** Lines 96 to 108: [tests] after the loop over [files]. *)
Fixpoint js_tests_loop (w : world) (files : list Path) (tests : list string)
  : result (list string) :=
  match files with
  | [] => Ok tests
  | file :: rest =>
      if is_js_test file
      then js_tests_loop w rest (tests ++ [PyPath.to_string file])
      else
        let candidate :=
          PyPath.joinpath (PyPath.of_string "tests")
                          (PyPath.stem file ++ ".test" ++ PyPath.suffix file) in
        found <- path_exists w candidate ;;
        if (found : bool)
        then js_tests_loop w rest (tests ++ [PyPath.to_string candidate])
        else js_tests_loop w rest tests
  end.

Definition collect_js_tests (w : world) (changed : list Path)
  : result (list string) :=
  let files :=
    filter (fun f => str_in (PyPath.suffix f) JS_TEST_EXTENSIONS) changed in
  js_tests_loop w files [].

(** Lines 94 to 109 for given changed files (the spec's [map_js_tests]). *)
Definition map_js_tests (w : world) (changed : list Path)
  : result (list string) :=
  tests <- collect_js_tests w changed ;;
  Ok (PyDict.keys (PyDict.fromkeys tests)).

Definition find_changed_js_tests (w : world) : result (list string) :=
  changed <- get_git_changed_files w ;;
  map_js_tests w changed.

(* ------------------------------------------------------------------ *)
(** ** Command assembly ([runners.py], lines 112 to 141) *)

(** [bool(expression)] for [expression : str | None]. *)
Definition opt_truthy (expression : option string) : bool :=
  match expression with
  | Some e => PyStr.truthy e
  | None => false
  end.

(** [if expression: cmd += [flag, expression]] *)
Definition add_filter (cmd : list string) (flag : string) (expression : option string)
  : list string :=
  match expression with
  | Some e => if PyStr.truthy e then cmd ++ [flag; e] else cmd
  | None => cmd
  end.

(** [if tests: cmd += tests] *)
Definition add_tests (cmd tests : list string) : list string :=
  match tests with
  | [] => cmd
  | _ :: _ => cmd ++ tests
  end.

Definition build_runner_command
  (runner : string) (tests : list string) (expression : option string)
  : option (list string) :=
  if String.eqb runner "pytest" then
    Some (add_tests (add_filter ["pytest"; "-q"] "-k" expression) tests)
  else if String.eqb runner "nose" then
    Some (add_tests (add_filter ["nosetests"] "-m" expression) tests)
  else if String.eqb runner "jest" then
    Some (add_tests (add_filter ["npx"; "jest"] "--testNamePattern" expression) tests)
  else if String.eqb runner "mocha" then
    Some (add_tests (add_filter ["npx"; "mocha"] "--grep" expression) tests)
  else None.

(* ------------------------------------------------------------------ *)
(** ** Focus orchestration *)

(** What a run shows and starts. *)
Inductive event : Type :=
| Print (line : string)
    (* [print(line)] *)
| PrintRunning (runner : string) (targets : list string)
    (* [print(f"Running {runner} with focus targets: {targets}")] *)
| CmdRun (command : list string) (out : string).
    (* [cmd_run(command, out)], the hand-over to the command executor *)

(** The parsed arguments of the [focus] sub-command. *)
Record focus_args : Type := mkArgs {
  arg_runner : option string;   (* --runner *)
  arg_pytest : bool;            (* --pytest *)
  arg_auto : bool;              (* --auto *)
  arg_k : option string;        (* -k *)
  arg_out : string              (* --out *)
}.

(** Computations that append to the log of events and may raise. *)
Module Log.

Definition M (A : Type) : Type := list event -> result A * list event.

Definition ret {A : Type} (a : A) : M A := fun log => (Ok a, log).

Definition bind {A B : Type} (c : M A) (k : A -> M B) : M B :=
  fun log =>
    match c log with
    | (Ok a, log') => k a log'
    | (Raise e, log') => (Raise e, log')
    end.

Definition emit (e : event) : M unit := fun log => (Ok tt, log ++ [e]).

Definition lift {A : Type} (r : result A) : M A := fun log => (r, log).

(** The outcome and the log of a run that starts with nothing shown. *)
Definition run {A : Type} (c : M A) : result A * list event := c [].

Declare Scope log_scope.
Delimit Scope log_scope with log.
Notation "x <- c ;; k" := (bind c (fun x => k))
  (at level 61, c at next level, right associativity) : log_scope.
Notation "c ;;; k" := (bind c (fun _ => k))
  (at level 61, right associativity) : log_scope.

End Log.
Import Log.

Definition msg_auto_detected (runner : string) : string :=
  "Auto-detected test runner: " ++ runner.
Definition msg_no_changed_tests : string :=
  "No changed tests detected. Run full suite or pass -k/--runner.".
Definition msg_not_implemented (runner : string) : string :=
  "No focus strategy implemented for runner '" ++ runner ++ "'.".

(** [find_changed_python_tests() if runner in {"pytest", "nose"}
     else find_changed_js_tests()] *)
Definition select_targets (w : world) (runner : string) : result (list string) :=
  if str_in runner ["pytest"; "nose"]
  then find_changed_python_tests w
  else find_changed_js_tests w.

(** The part the two focus commands share once the runner is resolved and
    found supported: [runners.py] lines 154 to 168, [devtriage.py] lines
    336 to 349. *)
Definition run_focus (w : world) (args : focus_args) (runner : string) : M unit :=
  (tests <- lift (select_targets w runner) ;;
   if negb (match tests with [] => false | _ => true end)
      && negb (opt_truthy (arg_k args))
   then emit (Print msg_no_changed_tests)
   else
     match build_runner_command runner tests (arg_k args) with
     | None | Some [] => emit (Print (msg_not_implemented runner))
     | Some command =>
         let target_label :=
           match tests with [] => ["<full-suite>"] | _ => tests end in
         emit (PrintRunning runner target_label) ;;;
         emit (CmdRun command (arg_out args))
     end)%log.

(** *** The package module: [focus_command] of [runners.py] *)

(** Lines 145 to 150; [detect] is the outcome [detect_test_runner()] has if
    it is called. *)
Definition select_runner (detect : result string) (args : focus_args)
  : M (option string) :=
  (let runner := arg_runner args in
   let runner := if arg_pytest args then Some "pytest" else runner in
   if arg_auto args || negb (opt_truthy runner) then
     detected <- lift detect ;;
     emit (Print (msg_auto_detected detected)) ;;;
     ret (Some detected)
   else ret runner)%log.

(** [runner not in SUPPORTED_RUNNERS] holds for [None] and for a string
    outside the tuple. *)
Definition focus_command (w : world) (args : focus_args) : M unit :=
  (runner <- select_runner (detect_test_runner w) args ;;
   match runner with
   | Some r =>
       if str_in r SUPPORTED_RUNNERS then run_focus w args r
       else emit (Print "No focus strategy selected. Use --runner/--pytest or enable --auto.")
   | None =>
       emit (Print "No focus strategy selected. Use --runner/--pytest or enable --auto.")
   end)%log.

(** *** The legacy script: [cmd_focus] of [devtriage.py]

    Its [detect_test_runner], [get_git_changed_files], [find_changed_*] and
    [build_runner_command] (lines 87 to 214) have the bodies of the package
    module's; the definitions above stand for both. *)
Module Legacy.

(** Lines 322 to 330. *)
Definition select_runner (detect : result string) (args : focus_args)
  : M (option string) :=
  (if opt_truthy (arg_runner args) then ret (arg_runner args)
   else if arg_pytest args then ret (Some "pytest")
   else if arg_auto args || negb (opt_truthy (arg_runner args)) then
     detected <- lift detect ;;
     emit (Print (msg_auto_detected detected)) ;;;
     ret (Some detected)
   else ret None)%log.

Definition cmd_focus (w : world) (args : focus_args) : M unit :=
  (runner <- select_runner (detect_test_runner w) args ;;
   match runner with
   | Some r =>
       if str_in r SUPPORTED_RUNNERS then run_focus w args r
       else emit (Print "No focus strategy selected. Use --runner, --pytest, or allow auto-detection.")
   | None =>
       emit (Print "No focus strategy selected. Use --runner, --pytest, or allow auto-detection.")
   end)%log.

End Legacy.

(* ------------------------------------------------------------------ *)
(** ** Redaction of secrets ([capture.py], lines 17 and 50 to 70) *)

Module Redact.

(** [s.upper()], as the code points of the result: the capital forms of
    [U+00B5] and [U+00FF] lie beyond 255, and [U+00DF] becomes two
    letters. *)
Definition upper_char (a : ascii) : list N :=
  let n := N_of_ascii a in
  if N.leb 97 n && N.leb n 122 then [(n - 32)%N]
  else if N.eqb n 181 then [924%N]
  else if N.eqb n 223 then [83%N; 83%N]
  else if N.leb 224 n && N.leb n 254 && negb (N.eqb n 247) then [(n - 32)%N]
  else if N.eqb n 255 then [376%N]
  else [n].

Fixpoint upper (s : string) : list N :=
  match s with
  | EmptyString => []
  | String a s' => upper_char a ++ upper s'
  end.

(** The code points of a string. *)
Fixpoint points (s : string) : list N :=
  match s with
  | EmptyString => []
  | String a s' => N_of_ascii a :: points s'
  end.

Fixpoint starts_with (needle hay : list N) : bool :=
  match needle, hay with
  | [], _ => true
  | _ :: _, [] => false
  | x :: needle', y :: hay' => N.eqb x y && starts_with needle' hay'
  end.

(** [needle in hay] for sequences of code points. *)
Fixpoint occurs (needle hay : list N) : bool :=
  starts_with needle hay
  || match hay with
     | [] => false
     | _ :: hay' => occurs needle hay'
     end.

Definition SENSITIVE_KEYS : list string := ["KEY"; "SECRET"; "TOKEN"; "PASSWORD"].

Definition REDACTED : string := "***REDACTED***".

(** [any(token in s.upper() for token in SENSITIVE_KEYS)] *)
Definition sensitive (s : string) : bool :=
  existsb (fun token => occurs (points token) (upper s)) SENSITIVE_KEYS.

Fixpoint sanitize_value (value : pyval) : pyval :=
  match value with
  | PyString s => if sensitive s then PyString REDACTED else value
  | PyDict entries =>
      PyDict (map (fun kv => (fst kv, sanitize_value (snd kv))) entries)
  | PyList items => PyList (map sanitize_value items)
  | _ => value
  end.

(** Lines 64 to 69: [sanitized] after the loop over [env.items()]. *)
Fixpoint sanitize_env_loop (items : pydict) (sanitized : pydict) : pydict :=
  match items with
  | [] => sanitized
  | (key, val) :: rest =>
      if sensitive key
      then sanitize_env_loop rest (PyDict.setitem key (PyString REDACTED) sanitized)
      else sanitize_env_loop rest (PyDict.setitem key (sanitize_value val) sanitized)
  end.

Definition sanitize_env (env : pydict) : pydict := sanitize_env_loop env [].

End Redact.

(* ------------------------------------------------------------------ *)
(** ** Vocabulary of the statements *)

(** [exists()] answers [True] at [p]. *)
Definition on_disk (w : world) (p : string) : bool :=
  match stat_error w p with
  | Some _ => false
  | None =>
      match lookup_node p (files w) with
      | Some _ => true
      | None => false
      end
  end.

(** The entry at [p] can be reached and is a readable text that contains
    [needle]. *)
Definition text_has (w : world) (p needle : string) : bool :=
  match stat_error w p with
  | Some _ => false
  | None =>
      match lookup_node p (files w) with
      | Some (Text s) => PyStr.contains needle s
      | _ => false
      end
  end.

(** [exists()] raises on none of [paths]. *)
Definition stat_clean (w : world) (paths : list string) : Prop :=
  forall p, In p paths -> stat_error w p = None.

(** [exists()] raises on no path at all. *)
Definition never_stat_error (w : world) : Prop :=
  forall p, stat_error w p = None.

(** The arguments a non-empty filter expression adds after [flag]. *)
Definition filter_args (flag : string) (expression : option string) : list string :=
  match expression with
  | Some e => if PyStr.truthy e then [flag; e] else []
  | None => []
  end.

(** The position of the first occurrence of [x] in [l] (its length if none). *)
Fixpoint first_index (x : string) (l : list string) : nat :=
  match l with
  | [] => 0
  | y :: l' => if String.eqb y x then 0 else S (first_index x l')
  end.

(** The elements of [l] that are neither in [seen] nor earlier in [l], in
    the order of [l]. *)
Fixpoint unseen (seen l : list string) : list string :=
  match l with
  | [] => []
  | x :: l' =>
      if str_in x seen then unseen seen l' else x :: unseen (seen ++ [x]) l'
  end.

(** [c in s] for a character. *)
Fixpoint has_char (c : ascii) (s : string) : bool :=
  match s with
  | EmptyString => false
  | String a s' => Ascii.eqb a c || has_char c s'
  end.

(** The targets one changed file stands for, in the words of the spec of
    the Python mapper. *)
Definition python_targets (w : world) (file : Path) : list string :=
  if negb (String.eqb (PyPath.suffix file) ".py") then []
  else if str_in "tests" (PyPath.parts file)
          || PyStr.startswith (PyPath.stem file) "test_"
          || PyStr.endswith (PyPath.stem file) "_test"
  then [PyPath.to_string file]
  else
    filter (on_disk w)
           [ ("tests/test_" ++ PyPath.stem file ++ ".py")%string;
             ("tests/" ++ PyPath.stem file ++ "_test.py")%string ].

(** A line feed, for texts of several lines. *)
Definition LF : string := String (ascii_of_nat 10) "".

(** A pytest marker decides: it exists and, for the three shared
    configuration files, its text contains [pytest]. *)
Definition pytest_hit (w : world) (marker : Path) : bool :=
  on_disk w (PyPath.to_string marker)
  && (if str_in (PyPath.name marker) ["setup.cfg"; "tox.ini"; "pyproject.toml"]
      then text_has w (PyPath.to_string marker) "pytest"
      else true).

Definition nose_hit (w : world) (marker : Path) : bool :=
  on_disk w (PyPath.to_string marker)
  && text_has w (PyPath.to_string marker) "nosetests".

(** [out] holds the elements of [raw] once each, ordered by their first
    occurrence in [raw]. *)
Definition first_seen_order (raw out : list string) : Prop :=
  NoDup out
  /\ (forall x, In x out <-> In x raw)
  /\ (forall i j x y,
        nth_error out i = Some x -> nth_error out j = Some y -> i < j ->
        first_index x raw < first_index y raw).

(** The commands a log hands to the command executor. *)
Fixpoint dispatched (log : list event) : list (list string * string) :=
  match log with
  | [] => []
  | CmdRun command out :: log' => (command, out) :: dispatched log'
  | _ :: log' => dispatched log'
  end.

(** The selection flags contradict each other: [--auto] next to a forced
    runner, or [--pytest] next to a [--runner] other than pytest. *)
Definition selection_conflict (args : focus_args) : bool :=
  (arg_auto args && (opt_truthy (arg_runner args) || arg_pytest args))
  || (arg_pytest args && opt_truthy (arg_runner args)
      && negb (match arg_runner args with
               | Some r => String.eqb r "pytest"
               | None => false
               end)).

(** The member [key] of the manifest object [d] read as a map is [m]; a
    member that is missing or empty in Python's sense counts as the empty
    map. *)
Definition section_of (d : pydict) (key : string) (m : pydict) : Prop :=
  match PyDict.lookup key d with
  | None => m = []
  | Some v => v = PyDict m \/ (truthy v = false /\ m = [])
  end.

(** The script table [scripts] holds the commands [commands], in order. *)
Definition script_commands (scripts : pydict) (commands : list string) : Prop :=
  PyDict.values scripts = map PyString commands.

(** The working directory of [w] without its [package.json]. *)
Definition without_manifest (w : world) : world :=
  mkEnv None (files w) (git_diff w) (stat_errors w).

(** The names the detection looks up besides [package.json]. *)
Definition marker_names : list string :=
  ["pytest.ini"; "conftest.py"; "tox.ini"; "setup.cfg"; "pyproject.toml";
   "nose.cfg"].

(** No character of [s] ends a line. *)
Fixpoint no_linebreak (s : string) : bool :=
  match s with
  | EmptyString => true
  | String a s' => negb (PyStr.is_linebreak a) && no_linebreak s'
  end.

(** A file name as [git] lists it and the query keeps it: not empty, on one
    line, without blanks around it. *)
Definition plain_name (s : string) : bool :=
  PyStr.truthy s && no_linebreak s && String.eqb (PyStr.strip s) s.

(** The lines, each ended by a line feed. *)
Fixpoint unlines (lines : list string) : string :=
  match lines with
  | [] => ""
  | l :: rest => l ++ LF ++ unlines rest
  end.

(** The targets one changed file stands for under the JavaScript mapper:
    none unless its extension is one of the four, itself when it looks like
    a test, else [tests/<stem>.test<extension>] if that exists. *)
Definition js_targets (w : world) (file : Path) : list string :=
  if negb (str_in (PyPath.suffix file) [".js"; ".jsx"; ".ts"; ".tsx"]) then []
  else if PyStr.contains ".test." (PyPath.name file)
          || PyStr.startswith (PyPath.stem file) "test_"
          || PyStr.endswith (PyPath.stem file) "_test"
          || str_in "__tests__" (PyPath.parts file)
          || str_in "tests" (PyPath.parts file)
  then [PyPath.to_string file]
  else
    filter (on_disk w)
           [ ("tests/" ++ PyPath.stem file ++ ".test" ++ PyPath.suffix file)%string ].

(** The environment of [w] with another [package.json]. *)
Definition with_manifest (pkg : option (result pyval)) (w : world) : world :=
  mkEnv pkg (files w) (git_diff w) (stat_errors w).


(** Every string inside [v], at any depth, satisfies [ok]; keys of
    dictionaries are not looked at. *)
Fixpoint all_strings (ok : string -> bool) (v : pyval) : bool :=
  match v with
  | PyString s => ok s
  | PyList items => forallb (all_strings ok) items
  | PyDict entries => forallb (fun kv => all_strings ok (snd kv)) entries
  | _ => true
  end.

(** What [sanitize_env] stores under [key] for the value [val]. *)
Definition sanitized_entry (key : string) (val : pyval) : pyval :=
  if Redact.sensitive key then PyString Redact.REDACTED
  else Redact.sanitize_value val.

(** Induction over Python values, through lists and dictionaries. *)
Section PyvalInduction.

Variable P : pyval -> Prop.
Hypothesis Hnone : P PyNone.
Hypothesis Hbool : forall b, P (PyBool b).
Hypothesis Hint : forall n, P (PyInt n).
Hypothesis Hfloat : forall x, P (PyFloat x).
Hypothesis Hstring : forall s, P (PyString s).
Hypothesis Hlist : forall items, Forall P items -> P (PyList items).
Hypothesis Hdict :
  forall entries, Forall (fun kv => P (snd kv)) entries -> P (PyDict entries).

Fixpoint pyval_nested_ind (v : pyval) : P v :=
  match v with
  | PyNone => Hnone
  | PyBool b => Hbool b
  | PyInt n => Hint n
  | PyFloat x => Hfloat x
  | PyString s => Hstring s
  | PyList items =>
      Hlist ((fix go (l : list pyval) : Forall P l :=
                match l with
                | [] => Forall_nil P
                | x :: l' => Forall_cons x (pyval_nested_ind x) (go l')
                end) items)
  | PyDict entries =>
      Hdict ((fix go (l : list (string * pyval))
                : Forall (fun kv => P (snd kv)) l :=
                match l with
                | [] => Forall_nil _
                | kv :: l' =>
                    Forall_cons kv (pyval_nested_ind (snd kv)) (go l')
                end) entries)
  end.

End PyvalInduction.

(** *** Sample environments *)

(** [git diff] succeeds and lists nothing. *)
Definition git_clean : result (Z * string * string) := Ok (0%Z, "", "").

(** An empty working directory in a repository without changes. *)
Definition empty_world : world := mkWorld None [] git_clean.

(** [package.json] declares jest among its dependencies, next to a
    [pytest.ini] and a nose section in [setup.cfg]. *)
Definition jest_with_markers : world :=
  mkWorld
    (Some (Ok (PyDict [("dependencies", PyDict [("jest", PyString "^29.0.0")])])))
    [("pytest.ini", Text ("[pytest]" ++ LF));
     ("setup.cfg", Text ("[nosetests]" ++ LF))]
    git_clean.

(** Only a [setup.cfg] with a nose section, as in the repository's test
    [test_detect_runner_nose_ini]. *)
Definition nose_setup_cfg : world :=
  mkWorld None
          [("setup.cfg", Text ("[nosetests]" ++ LF ++ "verbosity=2" ++ LF))]
          git_clean.


(** [package.json] declares jest among its dependencies and has a script
    that is the number 1; a [pytest.ini] lies next to it. *)
Definition jest_numeric_script : world :=
  mkWorld
    (Some (Ok (PyDict [("dependencies", PyDict [("jest", PyString "^29.0.0")]);
                       ("scripts", PyDict [("build", PyInt 1%Z)])])))
    [("pytest.ini", Text ("[pytest]" ++ LF))]
    git_clean.

(** A script runs jest, as in the repository's test
    [test_detect_runner_with_js_configs]; mocha is a development
    dependency and a [pytest.ini] lies next to the manifest. *)
Definition jest_script : world :=
  mkWorld
    (Some (Ok (PyDict [("name", PyString "app");
                       ("scripts", PyDict [("test", PyString "jest")]);
                       ("devDependencies", PyDict [("mocha", PyString "^10.0.0")])])))
    [("pytest.ini", Text ("[pytest]" ++ LF))]
    git_clean.

(** [package.json] holds the JSON array [[1]]. *)
Definition array_manifest : world :=
  mkWorld (Some (Ok (PyList [PyInt 1%Z]))) [] git_clean.

(** [package.json] holds an object whose script [build] is the number 1. *)
Definition numeric_script_manifest : world :=
  mkWorld (Some (Ok (PyDict [("scripts", PyDict [("build", PyInt 1%Z)])])))
          [] git_clean.

(** [package.json] holds an object whose [dependencies] member is a string. *)
Definition string_dependencies_manifest : world :=
  mkWorld (Some (Ok (PyDict [("dependencies", PyString "jest")]))) [] git_clean.

(** [git] cannot be started. *)
Definition git_missing : world :=
  mkWorld None [] (Raise FileNotFoundError).

(** Not a repository: [git] exits with 128 and writes to standard error only. *)
Definition not_a_repository : world :=
  mkWorld None [] (Ok (128%Z, "", "fatal: not a git repository")).

(** [src/foo.py] changed, and [tests/test_foo.py] exists. *)
Definition foo_changed : world :=
  mkWorld None
          [("tests/test_foo.py", Text "")]
          (Ok (0%Z, ("src/foo.py" ++ LF)%string, "")).

(** [tests/test_a.py] and [tests/b.test.ts] exist. *)
Definition two_tests_on_disk : world :=
  mkWorld None
          [("tests/test_a.py", Text ""); ("tests/b.test.ts", Text "")]
          git_clean.

(** Changed files with a repeated test file, a source file and a file
    that is not Python. *)
Definition python_changes : list Path :=
  map PyPath.of_string
      ["b_test.py"; "a.py"; "README.md"; "b_test.py"; "tests/test_a.py"].

Definition js_changes : list Path :=
  map PyPath.of_string ["a.test.js"; "src/b.ts"; "a.test.js"; "tests/b.test.ts"].

(** A script runs mocha, as in the repository's test
    [test_detect_runner_with_js_configs]; a [pytest.ini] lies next to it. *)
Definition mocha_script : world :=
  mkWorld
    (Some (Ok (PyDict [("scripts", PyDict [("ci", PyString "mocha --reporter spec")])])))
    [("pytest.ini", Text ("[pytest]" ++ LF))]
    git_clean.

(** Mocha among the development dependencies, next to a [conftest.py]. *)
Definition mocha_dev_dependency : world :=
  mkWorld
    (Some (Ok (PyDict [("name", PyString "app");
                       ("devDependencies", PyDict [("mocha", PyString "^10.0.0")])])))
    [("conftest.py", Text "")]
    git_clean.

(** [package.json] holds the empty JSON array, next to a nose
    configuration. *)
Definition empty_array_manifest : world :=
  mkWorld (Some (Ok (PyList [])))
          [("nose.cfg", Text ("[nosetests]" ++ LF))]
          git_clean.

(** The same markers as [nose_setup_cfg], with other files around and
    changes reported. *)
Definition nose_setup_cfg_busy : world :=
  mkWorld None
          [("README.md", Text "pytest");
           ("setup.cfg", Text ("[nosetests]" ++ LF ++ "verbosity=2" ++ LF));
           ("tests/test_a.py", Text "")]
          (Ok (0%Z, ("a.py" ++ LF)%string, "")).

(** The environment of the repository's test
    [test_sanitize_env_redacts_sensitive_keys]. *)
Definition sample_env : pydict :=
  [("API_KEY", PyString "abcd");
   ("normal", PyString "value");
   ("secret_token", PyString "hunter2")].

(** A payload whose secret sits under a telling key but has a harmless
    text, next to the payload of [test_sanitize_value_redacts_strings]. *)
Definition sample_payload : pydict :=
  [("password", PyString "hunter2");
   ("nested", PyList [PyString "token-123"; PyString "ok"])].

(** [package.json] holds the JSON array [[1]]; [src/foo.py] changed and
    [tests/test_foo.py] exists. *)
Definition array_manifest_foo_changed : world :=
  with_manifest (Some (Ok (PyList [PyInt 1%Z]))) foo_changed.

(** *** Sample arguments *)

(** [--runner jest --auto -k slow] *)
Definition forced_jest_auto : focus_args :=
  mkArgs (Some "jest") false true (Some "slow") "out".

(** [--runner jest --pytest -k slow] *)
Definition forced_jest_pytest : focus_args :=
  mkArgs (Some "jest") true false (Some "slow") "out".

(** [--runner nose] *)
Definition runner_nose : focus_args := mkArgs (Some "nose") false false None "out".

(** [--runner pytest] *)
Definition runner_pytest : focus_args :=
  mkArgs (Some "pytest") false false None "out".

(** No option at all. *)
Definition no_options : focus_args := mkArgs None false false None "out".

(** [--pytest --auto -k slow] *)
Definition pytest_auto : focus_args :=
  mkArgs None true true (Some "slow") "out".

(* ================================================================== *)
(** * Properties *)

(** ** The result monad and the absorbed failures *)

Lemma try_except_default {A : Type} (body : result A) (a : A) :
  exists x, try_except body (fun _ => Ok a) = Ok x.
Proof. destruct body as [x | e]; simpl; eauto. Qed.

Lemma read_package_json_total (w : world) :
  stat_error w "package.json" = None ->
  exists v, read_package_json w = Ok v.
Proof.
  intro Hstat. unfold read_package_json, package_json_exists. rewrite Hstat.
  cbn [ResultMonad.bind].
  destruct (package_json_file w) as [loaded | ]; cbn [negb]; [ | eauto ].
  apply try_except_default.
Qed.

Lemma file_contains_text_has (w : world) (path : Path) (needle : string) :
  file_contains w path needle = Ok (text_has w (PyPath.to_string path) needle).
Proof.
  unfold file_contains, read_text, text_has.
  destruct (stat_error w (PyPath.to_string path)); [ reflexivity | ].
  destruct (lookup_node (PyPath.to_string path) (files w)) as [[s | e] | ];
    reflexivity.
Qed.

Lemma path_exists_on_disk (w : world) (path : Path) :
  stat_error w (PyPath.to_string path) = None ->
  path_exists w path = Ok (on_disk w (PyPath.to_string path)).
Proof.
  intro Hstat. unfold path_exists, on_disk. rewrite Hstat.
  now destruct (lookup_node (PyPath.to_string path) (files w)).
Qed.

Lemma path_exists_value (w : world) (path : Path) (found : bool) :
  path_exists w path = Ok found ->
  stat_error w (PyPath.to_string path) = None
  /\ found = on_disk w (PyPath.to_string path).
Proof.
  unfold path_exists, on_disk.
  destruct (stat_error w (PyPath.to_string path)); [ discriminate | ].
  destruct (lookup_node (PyPath.to_string path) (files w));
    intros [= <-]; auto.
Qed.

Lemma text_has_on_disk (w : world) (p needle : string) :
  text_has w p needle = true -> on_disk w p = true.
Proof.
  unfold text_has, on_disk.
  destruct (stat_error w p); [ congruence | ].
  destruct (lookup_node p (files w)) as [[s | e] | ]; congruence.
Qed.

Lemma on_disk_and_text_has (w : world) (p needle : string) :
  on_disk w p && text_has w p needle = text_has w p needle.
Proof.
  destruct (text_has w p needle) eqn:H.
  - now rewrite (text_has_on_disk _ _ _ H).
  - apply andb_false_r.
Qed.

(** ** Command assembly *)

Lemma add_filter_app (cmd : list string) (flag : string) (expression : option string) :
  add_filter cmd flag expression = cmd ++ filter_args flag expression.
Proof.
  unfold add_filter, filter_args.
  destruct expression as [e | ]; [ destruct (PyStr.truthy e) | ];
    now rewrite ?app_nil_r.
Qed.

Lemma add_tests_app (cmd tests : list string) : add_tests cmd tests = cmd ++ tests.
Proof. destruct tests; simpl; now rewrite ?app_nil_r. Qed.

Lemma build_unsupported (runner : string) tests expression :
  ~ In runner SUPPORTED_RUNNERS ->
  build_runner_command runner tests expression = None.
Proof.
  intros Hout. unfold build_runner_command.
  repeat match goal with
         | |- context [String.eqb runner ?s] =>
             destruct (String.eqb_spec runner s) as [-> | _];
               [ exfalso; apply Hout; simpl; tauto | ]
         end.
  reflexivity.
Qed.

(** C6. [build_runner_command] returns the base command of the runner, then
    the runner's filter flag with the expression when the expression is
    non-empty, then the test targets in order; for a runner outside the
    four supported ones it returns [None]. *)
Theorem build_runner_command_shape (tests : list string) (expression : option string) :
  build_runner_command "pytest" tests expression
    = Some (["pytest"; "-q"] ++ filter_args "-k" expression ++ tests)
  /\ build_runner_command "nose" tests expression
    = Some (["nosetests"] ++ filter_args "-m" expression ++ tests)
  /\ build_runner_command "jest" tests expression
    = Some (["npx"; "jest"] ++ filter_args "--testNamePattern" expression ++ tests)
  /\ build_runner_command "mocha" tests expression
    = Some (["npx"; "mocha"] ++ filter_args "--grep" expression ++ tests)
  /\ forall runner, ~ In runner SUPPORTED_RUNNERS ->
       build_runner_command runner tests expression = None.
Proof.
  repeat split;
    try (unfold build_runner_command; cbn [String.eqb Ascii.eqb Bool.eqb];
         rewrite add_tests_app, add_filter_app, <- app_assoc; reflexivity).
  intros runner Hout. now apply build_unsupported.
Qed.

Lemma build_runner_command_shape_witness :
  build_runner_command "pytest" [] None = Some ["pytest"; "-q"]
  /\ build_runner_command "pytest" ["tests/test_a.py"] (Some "slow")
     = Some ["pytest"; "-q"; "-k"; "slow"; "tests/test_a.py"]
  /\ build_runner_command "jest" ["a.test.js"] (Some "foo")
     = Some ["npx"; "jest"; "--testNamePattern"; "foo"; "a.test.js"]
  /\ build_runner_command "unittest" ["tests/test_a.py"] (Some "slow") = None.
Proof.
  split; [ | split; [ | split ] ].
  - exact (proj1 (build_runner_command_shape [] None)).
  - exact (proj1 (build_runner_command_shape ["tests/test_a.py"] (Some "slow"))).
  - exact (proj1 (proj2 (proj2
             (build_runner_command_shape ["a.test.js"] (Some "foo"))))).
  - apply (proj2 (proj2 (proj2 (proj2
             (build_runner_command_shape ["tests/test_a.py"] (Some "slow")))))).
    simpl. intros [H | [H | [H | [H | []]]]]; discriminate H.
Defined.

(** ** Runner detection *)

Lemma mem_setitem (key k : string) (v : pyval) (d : pydict) :
  PyDict.mem key (PyDict.setitem k v d) = String.eqb k key || PyDict.mem key d.
Proof.
  unfold PyDict.mem.
  induction d as [ | [k0 v0] d IH]; simpl.
  - now destruct (String.eqb k key).
  - destruct (String.eqb_spec k0 k) as [-> | Hne]; simpl.
    + now destruct (String.eqb k key).
    + destruct (String.eqb_spec k0 key) as [-> | Hne'].
      * now rewrite orb_true_r.
      * exact IH.
Qed.

Lemma mem_update (key : string) (other d : pydict) :
  PyDict.mem key (PyDict.update d other) = PyDict.mem key d || PyDict.mem key other.
Proof.
  unfold PyDict.update.
  revert d. induction other as [ | [k v] other IH]; intro d; simpl.
  - now rewrite orb_false_r.
  - rewrite IH, mem_setitem. unfold PyDict.mem at 4. simpl.
    destruct (String.eqb k key); simpl.
    + now rewrite !orb_true_r.
    + reflexivity.
Qed.

Lemma mem_In (key : string) (m : pydict) :
  PyDict.mem key m = true <-> In key (PyDict.keys m).
Proof.
  unfold PyDict.mem, PyDict.keys.
  induction m as [ | [k v] m IH]; cbn [PyDict.lookup map fst In].
  - split; [ discriminate | tauto ].
  - destruct (String.eqb_spec k key) as [-> | Hne]; [ tauto | ].
    rewrite IH. tauto.
Qed.

Lemma mem_In_false (key : string) (m : pydict) :
  ~ In key (PyDict.keys m) -> PyDict.mem key m = false.
Proof.
  intro H. destruct (PyDict.mem key m) eqn:Hm; [ | reflexivity ].
  now apply mem_In in Hm.
Qed.

Lemma section_mapping (d : pydict) (key : string) (m : pydict) :
  section_of d key m ->
  as_mapping (or_empty_dict
    (match PyDict.lookup key d with Some x => x | None => PyNone end)) = Ok m
  /\ or_empty_dict
       (match PyDict.lookup key d with Some x => x | None => PyNone end)
     = PyDict m.
Proof.
  unfold section_of, or_empty_dict.
  destruct (PyDict.lookup key d) as [v | ].
  - intros [-> | [Hv ->]].
    + destruct m; split; reflexivity.
    + rewrite Hv. split; reflexivity.
  - intros ->. split; reflexivity.
Qed.

Lemma as_strings_commands (commands : list string) :
  as_strings (map PyString commands) = Ok commands.
Proof.
  induction commands as [ | c commands IH]; [ reflexivity | ].
  cbn [map as_strings]. now rewrite IH.
Qed.

(** What lines 35 to 45 give for a manifest object with usable members. *)
Lemma manifest_runner_of_sections
      (d dependencies dev scripts : pydict) (commands : list string) :
  section_of d "dependencies" dependencies ->
  section_of d "devDependencies" dev ->
  section_of d "scripts" scripts ->
  script_commands scripts commands ->
  manifest_runner (PyDict d)
  = Ok (if PyDict.mem "jest" dependencies || PyDict.mem "jest" dev
           || PyStr.contains "jest" (PyStr.join " " commands)
        then Some "jest"
        else if PyDict.mem "mocha" dependencies || PyDict.mem "mocha" dev
                || PyStr.contains "mocha" (PyStr.join " " commands)
        then Some "mocha"
        else None).
Proof.
  intros Hdeps Hdev Hscripts Hcommands.
  destruct d as [ | kv d].
  - cbn in Hdeps, Hdev, Hscripts. subst.
    destruct commands; [ reflexivity | discriminate Hcommands ].
  - unfold manifest_runner. cbn [truthy].
    unfold manifest_scripts, merged_dependencies, join_scripts, py_get, py_join.
    cbn [ResultMonad.bind].
    destruct (section_mapping _ _ _ Hdeps) as [-> _].
    destruct (section_mapping _ _ _ Hdev) as [-> _].
    destruct (section_mapping _ _ _ Hscripts) as [_ ->].
    cbn [ResultMonad.bind py_values].
    rewrite Hcommands, as_strings_commands. cbn [ResultMonad.bind].
    rewrite !mem_update.
    change (PyDict.mem "jest" []) with false.
    change (PyDict.mem "mocha" []) with false. cbn [orb].
    destruct (PyDict.mem "jest" dependencies || PyDict.mem "jest" dev
              || PyStr.contains "jest" (PyStr.join " " commands));
      [ reflexivity | ].
    now destruct (PyDict.mem "mocha" dependencies || PyDict.mem "mocha" dev
                  || PyStr.contains "mocha" (PyStr.join " " commands)).
Qed.

Lemma read_parsed_manifest (w : world) (v : pyval) :
  stat_error w "package.json" = None ->
  package_json_file w = Some (Ok v) ->
  read_package_json w = Ok v.
Proof.
  intros Hstat Hfile. unfold read_package_json, package_json_exists.
  now rewrite Hstat, Hfile.
Qed.

(** C1, at an input the code can receive: a manifest that declares jest
    among its dependencies and has a script that is not a string makes
    [detect_test_runner] raise instead of returning [jest]. *)
Theorem detect_jest_raises :
  package_json_file jest_numeric_script
  = Some (Ok (PyDict [("dependencies", PyDict [("jest", PyString "^29.0.0")]);
                      ("scripts", PyDict [("build", PyInt 1%Z)])]))
  /\ section_of [("dependencies", PyDict [("jest", PyString "^29.0.0")]);
                 ("scripts", PyDict [("build", PyInt 1%Z)])]
                "dependencies" [("jest", PyString "^29.0.0")]
  /\ In "jest" (PyDict.keys [("jest", PyString "^29.0.0")])
  /\ detect_test_runner jest_numeric_script = Raise TypeError.
Proof.
  split; [ reflexivity | split; [ now left | split; [ now left | reflexivity ] ] ].
Qed.

(** For a manifest object whose [dependencies], [devDependencies] and
    [scripts] members are usable (missing, empty, or a table; script
    commands all strings): when one of the two dependency tables has the
    key [jest], or the commands joined by spaces contain [jest],
    [detect_test_runner] returns [jest], whatever marker files are
    present. *)
Theorem detect_jest_precedence
  (w : world) (d dependencies dev scripts : pydict) (commands : list string) :
  stat_error w "package.json" = None ->
  package_json_file w = Some (Ok (PyDict d)) ->
  section_of d "dependencies" dependencies ->
  section_of d "devDependencies" dev ->
  section_of d "scripts" scripts ->
  script_commands scripts commands ->
  In "jest" (PyDict.keys dependencies)
  \/ In "jest" (PyDict.keys dev)
  \/ PyStr.contains "jest" (PyStr.join " " commands) = true ->
  detect_test_runner w = Ok "jest".
Proof.
  intros Hstat Hfile Hdeps Hdev Hscripts Hcommands Hjest.
  unfold detect_test_runner.
  rewrite (@read_parsed_manifest w _ Hstat Hfile). cbn [ResultMonad.bind].
  rewrite (@manifest_runner_of_sections _ _ _ _ _ Hdeps Hdev Hscripts Hcommands).
  assert (Hev : PyDict.mem "jest" dependencies || PyDict.mem "jest" dev
                || PyStr.contains "jest" (PyStr.join " " commands) = true).
  { destruct Hjest as [H | [H | H]].
    - apply mem_In in H. now rewrite H.
    - apply mem_In in H. rewrite H. now rewrite orb_true_r.
    - rewrite H. apply orb_true_r. }
  now rewrite Hev.
Qed.

Lemma detect_jest_precedence_witness :
  on_disk jest_with_markers "pytest.ini" = true
  /\ text_has jest_with_markers "setup.cfg" "nosetests" = true
  /\ detect_test_runner jest_with_markers = Ok "jest"
  /\ detect_test_runner jest_script = Ok "jest".
Proof.
  split; [ reflexivity | split; [ reflexivity | split ] ].
  - apply (@detect_jest_precedence jest_with_markers
             [("dependencies", PyDict [("jest", PyString "^29.0.0")])]
             [("jest", PyString "^29.0.0")] [] [] []);
      try reflexivity.
    + now left.
    + left. now left.
  - apply (@detect_jest_precedence jest_script
             [("name", PyString "app");
              ("scripts", PyDict [("test", PyString "jest")]);
              ("devDependencies", PyDict [("mocha", PyString "^10.0.0")])]
             [] [("mocha", PyString "^10.0.0")]
             [("test", PyString "jest")] ["jest"]);
      try reflexivity.
    + now left.
    + now left.
    + right. right. reflexivity.
Defined.

(** C2, at inputs the code can receive: a [package.json] that holds valid
    JSON other than a well-formed manifest object makes
    [detect_test_runner] raise instead of returning a runner. *)
Theorem detect_test_runner_raises :
  detect_test_runner array_manifest = Raise AttributeError
  /\ detect_test_runner numeric_script_manifest = Raise TypeError
  /\ detect_test_runner string_dependencies_manifest = Raise TypeError.
Proof.
  split; [ reflexivity | split; reflexivity ].
Qed.

(** What does hold: the manifest reader absorbs every failure, and a
    runner that is returned is one of the four. *)
Lemma scan_pytest_markers_value (w : world) (markers : list Path) (o : option string) :
  scan_pytest_markers w markers = Ok o -> o = None \/ o = Some "pytest".
Proof.
  induction markers as [ | m ms IH]; cbn [scan_pytest_markers].
  - intros [= <-]. now left.
  - rewrite file_contains_text_has.
    destruct (path_exists w m) as [[ | ] | e]; cbn [ResultMonad.bind];
      try discriminate; try exact IH.
    destruct (str_in (PyPath.name m) ["setup.cfg"; "tox.ini"; "pyproject.toml"]);
      [ | intros [= <-]; now right ].
    destruct (text_has w (PyPath.to_string m) "pytest"); [ | exact IH ].
    intros [= <-]. now right.
Qed.

Lemma scan_nose_markers_value (w : world) (markers : list Path) (o : option string) :
  scan_nose_markers w markers = Ok o -> o = None \/ o = Some "nose".
Proof.
  induction markers as [ | m ms IH]; cbn [scan_nose_markers].
  - intros [= <-]. now left.
  - rewrite file_contains_text_has.
    destruct (path_exists w m) as [[ | ] | e]; cbn [ResultMonad.bind];
      try discriminate; try exact IH.
    destruct (text_has w (PyPath.to_string m) "nosetests"); [ | exact IH ].
    intros [= <-]. now right.
Qed.

Lemma manifest_runner_value (package_json : pyval) (r : string) :
  manifest_runner package_json = Ok (Some r) -> r = "jest" \/ r = "mocha".
Proof.
  unfold manifest_runner, ResultMonad.bind.
  repeat match goal with
         | |- context [if ?b then _ else _] => destruct b
         | |- context [match ?c with Ok _ => _ | Raise _ => _ end] => destruct c
         end; intros [= <-] || discriminate; auto.
Qed.

Lemma detect_test_runner_supported (w : world) (r : string) :
  detect_test_runner w = Ok r -> In r SUPPORTED_RUNNERS.
Proof.
  unfold detect_test_runner, ResultMonad.bind.
  destruct (read_package_json w) as [pj | e]; [ | discriminate ].
  destruct (manifest_runner pj) as [[r0 | ] | e] eqn:Hm.
  - intros [= <-]. destruct (manifest_runner_value _ Hm) as [-> | ->];
      simpl; tauto.
  - destruct (scan_pytest_markers w pytest_markers) as [o | e] eqn:Hp;
      [ | discriminate ].
    destruct (scan_pytest_markers_value _ _ Hp) as [-> | ->];
      [ | intros [= <-]; simpl; tauto ].
    destruct (scan_nose_markers w nose_markers) as [o | e] eqn:Hn;
      [ | discriminate ].
    destruct (scan_nose_markers_value _ _ Hn) as [-> | ->];
      intros [= <-]; simpl; tauto.
  - discriminate.
Qed.

Lemma scan_pytest_markers_existsb (w : world) (markers : list Path)
      (o : option string) :
  scan_pytest_markers w markers = Ok o ->
  o = if existsb (pytest_hit w) markers then Some "pytest" else None.
Proof.
  induction markers as [ | m ms IH]; cbn [scan_pytest_markers existsb].
  - now intros [= <-].
  - unfold pytest_hit at 1. rewrite file_contains_text_has.
    destruct (path_exists w m) as [found | e] eqn:Hm; [ | discriminate ].
    apply path_exists_value in Hm as [_ ->]. cbn [ResultMonad.bind].
    destruct (on_disk w (PyPath.to_string m)); cbn [andb orb]; [ | exact IH ].
    destruct (str_in (PyPath.name m) ["setup.cfg"; "tox.ini"; "pyproject.toml"]);
      [ | now intros [= <-] ].
    cbn [ResultMonad.bind].
    destruct (text_has w (PyPath.to_string m) "pytest"); cbn [orb];
      [ now intros [= <-] | exact IH ].
Qed.

Lemma scan_pytest_markers_total (w : world) (markers : list Path) :
  (forall m, In m markers -> stat_error w (PyPath.to_string m) = None) ->
  exists o, scan_pytest_markers w markers = Ok o.
Proof.
  induction markers as [ | m ms IH]; intro Hclean; [ now exists None | ].
  cbn [scan_pytest_markers].
  rewrite path_exists_on_disk by (apply Hclean; now left).
  rewrite file_contains_text_has. cbn [ResultMonad.bind].
  assert (Hrest : exists o, scan_pytest_markers w ms = Ok o)
    by (apply IH; intros m' Hm'; apply Hclean; now right).
  destruct (on_disk w (PyPath.to_string m)); [ | exact Hrest ].
  destruct (str_in (PyPath.name m) ["setup.cfg"; "tox.ini"; "pyproject.toml"]);
    [ | eauto ].
  cbn [ResultMonad.bind].
  destruct (text_has w (PyPath.to_string m) "pytest"); eauto.
Qed.

Lemma scan_nose_markers_existsb (w : world) (markers : list Path)
      (o : option string) :
  scan_nose_markers w markers = Ok o ->
  o = if existsb (nose_hit w) markers then Some "nose" else None.
Proof.
  induction markers as [ | m ms IH]; cbn [scan_nose_markers existsb].
  - now intros [= <-].
  - unfold nose_hit at 1. rewrite file_contains_text_has.
    destruct (path_exists w m) as [found | e] eqn:Hm; [ | discriminate ].
    apply path_exists_value in Hm as [_ ->]. cbn [ResultMonad.bind].
    destruct (on_disk w (PyPath.to_string m)); cbn [andb orb]; [ | exact IH ].
    destruct (text_has w (PyPath.to_string m) "nosetests"); cbn [orb];
      [ now intros [= <-] | exact IH ].
Qed.

Lemma scan_nose_markers_total (w : world) (markers : list Path) :
  (forall m, In m markers -> stat_error w (PyPath.to_string m) = None) ->
  exists o, scan_nose_markers w markers = Ok o.
Proof.
  induction markers as [ | m ms IH]; intro Hclean; [ now exists None | ].
  cbn [scan_nose_markers].
  rewrite path_exists_on_disk by (apply Hclean; now left).
  rewrite file_contains_text_has. cbn [ResultMonad.bind].
  assert (Hrest : exists o, scan_nose_markers w ms = Ok o)
    by (apply IH; intros m' Hm'; apply Hclean; now right).
  destruct (on_disk w (PyPath.to_string m)); [ | exact Hrest ].
  destruct (text_has w (PyPath.to_string m) "nosetests"); eauto.
Qed.

Lemma markers_clean (w : world) :
  stat_clean w marker_names ->
  (forall m, In m pytest_markers -> stat_error w (PyPath.to_string m) = None)
  /\ (forall m, In m nose_markers -> stat_error w (PyPath.to_string m) = None).
Proof.
  intro Hclean. split; intros m Hm; cbn in Hm;
    repeat (destruct Hm as [<- | Hm]; [ apply Hclean; cbn; tauto | ]);
    contradiction.
Qed.

(** The outcome of the two scans written out over the marker names. *)
Lemma marker_evidence (w : world) :
  (if existsb (pytest_hit w) pytest_markers then "pytest"
   else if existsb (nose_hit w) nose_markers then "nose"
   else "pytest")
  = (if on_disk w "pytest.ini" || on_disk w "conftest.py"
        || text_has w "tox.ini" "pytest" || text_has w "setup.cfg" "pytest"
        || text_has w "pyproject.toml" "pytest"
     then "pytest"
     else if text_has w "nose.cfg" "nosetests"
             || text_has w "setup.cfg" "nosetests"
             || text_has w "tox.ini" "nosetests"
     then "nose"
     else "pytest").
Proof.
  change (existsb (pytest_hit w) pytest_markers)
    with (on_disk w "pytest.ini" && true
          || (on_disk w "conftest.py" && true
          || (on_disk w "tox.ini" && text_has w "tox.ini" "pytest"
          || (on_disk w "setup.cfg" && text_has w "setup.cfg" "pytest"
          || (on_disk w "pyproject.toml" && text_has w "pyproject.toml" "pytest"
          || false))))).
  change (existsb (nose_hit w) nose_markers)
    with (on_disk w "nose.cfg" && text_has w "nose.cfg" "nosetests"
          || (on_disk w "setup.cfg" && text_has w "setup.cfg" "nosetests"
          || (on_disk w "tox.ini" && text_has w "tox.ini" "nosetests"
          || false))).
  now rewrite !on_disk_and_text_has, !andb_true_r, !orb_false_r, !orb_assoc.
Qed.

(** Past the manifest stage a run that returns returns what the markers
    say. *)
Lemma detect_from_markers_returned (w : world) (package_json : pyval) (r : string) :
  read_package_json w = Ok package_json ->
  manifest_runner package_json = Ok None ->
  detect_test_runner w = Ok r ->
  r = if existsb (pytest_hit w) pytest_markers then "pytest"
      else if existsb (nose_hit w) nose_markers then "nose"
      else "pytest".
Proof.
  intros Hread Hmanifest.
  unfold detect_test_runner, ResultMonad.bind. rewrite Hread, Hmanifest.
  destruct (scan_pytest_markers w pytest_markers) as [o | e] eqn:Hp;
    [ | discriminate ].
  apply scan_pytest_markers_existsb in Hp as ->.
  destruct (existsb (pytest_hit w) pytest_markers); [ now intros [= <-] | ].
  destruct (scan_nose_markers w nose_markers) as [o | e] eqn:Hn;
    [ | discriminate ].
  apply scan_nose_markers_existsb in Hn as ->.
  destruct (existsb (nose_hit w) nose_markers); now intros [= <-].
Qed.

(** And it returns when [exists()] raises on none of the markers. *)
Lemma detect_from_markers_total (w : world) (package_json : pyval) :
  stat_clean w marker_names ->
  read_package_json w = Ok package_json ->
  manifest_runner package_json = Ok None ->
  exists r, detect_test_runner w = Ok r.
Proof.
  intros Hclean Hread Hmanifest.
  destruct (markers_clean Hclean) as [Hp Hn].
  unfold detect_test_runner, ResultMonad.bind. rewrite Hread, Hmanifest.
  destruct (scan_pytest_markers_total w pytest_markers Hp) as [[r | ] ->];
    [ eauto | ].
  destruct (scan_nose_markers_total w nose_markers Hn) as [[r | ] ->]; eauto.
Qed.



(** The manifest stage and [exists()] are the only parts of the detection
    that can raise. *)
Lemma detect_test_runner_returns (w : world) (package_json : pyval)
      (from_manifest : option string) :
  stat_clean w marker_names ->
  read_package_json w = Ok package_json ->
  manifest_runner package_json = Ok from_manifest ->
  exists r, detect_test_runner w = Ok r /\ In r SUPPORTED_RUNNERS.
Proof.
  intros Hclean Hread Hmanifest.
  assert (H : exists r, detect_test_runner w = Ok r).
  { destruct from_manifest as [r | ].
    - unfold detect_test_runner, ResultMonad.bind. rewrite Hread, Hmanifest.
      eauto.
    - now apply detect_from_markers_total with (package_json := package_json). }
  destruct H as [r Hr]. exists r. split; [ exact Hr | ].
  now apply detect_test_runner_supported with (w := w).
Qed.

Lemma detect_test_runner_default : detect_test_runner empty_world = Ok "pytest".
Proof. reflexivity. Qed.

(** ** The changed-file query *)

(** C9. [get_git_changed_files] never raises: it returns a list, and the
    empty list when running [git] raises or when [git] fails without
    output, as it does outside a repository. *)
Theorem get_git_changed_files_soft_fail (w : world) :
  (exists changed, get_git_changed_files w = Ok changed)
  /\ (forall e, git_diff w = Raise e -> get_git_changed_files w = Ok [])
  /\ (forall code err, git_diff w = Ok (code, "", err) ->
        get_git_changed_files w = Ok []).
Proof.
  unfold get_git_changed_files. split; [ | split ].
  - apply try_except_default.
  - intros e ->. reflexivity.
  - intros code err ->. reflexivity.
Qed.

Lemma get_git_changed_files_soft_fail_witness :
  get_git_changed_files git_missing = Ok []
  /\ get_git_changed_files not_a_repository = Ok []
  /\ get_git_changed_files (mkWorld None [] (Raise (OtherException "CalledProcessError")))
     = Ok [].
Proof.
  split; [ | split ].
  - exact (proj1 (proj2 (get_git_changed_files_soft_fail git_missing))
                 FileNotFoundError eq_refl).
  - exact (proj2 (proj2 (get_git_changed_files_soft_fail not_a_repository))
                 128%Z "fatal: not a git repository" eq_refl).
  - reflexivity.
Defined.

(** ** Deduplication: [list(dict.fromkeys(tests))] *)

Lemma str_in_In (x : string) (l : list string) : str_in x l = true <-> In x l.
Proof.
  unfold str_in. rewrite existsb_exists. split.
  - intros [y [Hy Heq]]. apply String.eqb_eq in Heq. now subst.
  - intro H. exists x. split; [ exact H | apply String.eqb_refl ].
Qed.

Lemma str_in_false (x : string) (l : list string) : str_in x l = false <-> ~ In x l.
Proof.
  rewrite <- str_in_In. destruct (str_in x l); split; congruence.
Qed.

Lemma keys_setitem (k : string) (v : pyval) (d : pydict) :
  PyDict.keys (PyDict.setitem k v d)
  = if str_in k (PyDict.keys d) then PyDict.keys d else PyDict.keys d ++ [k].
Proof.
  unfold PyDict.keys, str_in.
  induction d as [ | [k0 v0] d IH]; [ reflexivity | ].
  cbn [PyDict.setitem map fst existsb].
  rewrite (String.eqb_sym k k0).
  destruct (String.eqb k0 k); cbn [map fst orb]; [ reflexivity | ].
  rewrite IH. now destruct (existsb (String.eqb k) (map fst d)).
Qed.

Lemma keys_fromkeys_from (l : list string) (d : pydict) :
  PyDict.keys (fold_left (fun acc k => PyDict.setitem k PyNone acc) l d)
  = PyDict.keys d ++ unseen (PyDict.keys d) l.
Proof.
  revert d. induction l as [ | x l IH]; intro d; cbn [fold_left unseen].
  - now rewrite app_nil_r.
  - rewrite IH, keys_setitem.
    destruct (str_in x (PyDict.keys d)); [ reflexivity | ].
    now rewrite <- app_assoc.
Qed.

Lemma keys_fromkeys (l : list string) :
  PyDict.keys (PyDict.fromkeys l) = unseen [] l.
Proof. unfold PyDict.fromkeys. now rewrite keys_fromkeys_from. Qed.

Lemma unseen_In (l seen : list string) (x : string) :
  In x (unseen seen l) <-> In x l /\ ~ In x seen.
Proof.
  revert seen. induction l as [ | a l IH]; intro seen; cbn [unseen].
  - simpl. tauto.
  - destruct (str_in a seen) eqn:Ha.
    + rewrite IH. apply str_in_In in Ha. simpl. split.
      * tauto.
      * intros [[-> | H] Hn]; tauto.
    + apply str_in_false in Ha. simpl. rewrite IH, in_app_iff. simpl.
      destruct (string_dec a x) as [-> | Hne]; tauto.
Qed.

Lemma unseen_NoDup (l seen : list string) : NoDup (unseen seen l).
Proof.
  revert seen. induction l as [ | a l IH]; intro seen; cbn [unseen].
  - constructor.
  - destruct (str_in a seen); [ apply IH | ].
    constructor; [ | apply IH ].
    rewrite unseen_In, in_app_iff. simpl. tauto.
Qed.

Lemma first_index_cons_neq (a x : string) (l : list string) :
  a <> x -> first_index x (a :: l) = S (first_index x l).
Proof.
  intro Hne. simpl. now destruct (String.eqb_spec a x).
Qed.

Lemma unseen_order (l seen : list string) (i j : nat) (x y : string) :
  nth_error (unseen seen l) i = Some x ->
  nth_error (unseen seen l) j = Some y ->
  i < j ->
  first_index x l < first_index y l.
Proof.
  revert seen i j.
  induction l as [ | a l IH]; intros seen i j Hx Hy Hij; cbn [unseen] in Hx, Hy.
  - destruct i; discriminate Hx.
  - destruct (str_in a seen) eqn:Ha.
    + apply str_in_In in Ha.
      assert (a <> x).
      { intros ->. apply nth_error_In, unseen_In in Hx. tauto. }
      assert (a <> y).
      { intros ->. apply nth_error_In, unseen_In in Hy. tauto. }
      rewrite !first_index_cons_neq by assumption.
      apply -> Nat.succ_lt_mono. eapply IH; eauto.
    + destruct j as [ | j]; [ lia | ]. cbn [nth_error] in Hy.
      assert (a <> y).
      { intros ->. apply nth_error_In, unseen_In in Hy.
        rewrite in_app_iff in Hy. simpl in Hy. tauto. }
      rewrite (first_index_cons_neq l H).
      destruct i as [ | i]; cbn [nth_error] in Hx.
      * injection Hx as ->. simpl. rewrite String.eqb_refl. lia.
      * assert (a <> x).
        { intros ->. apply nth_error_In, unseen_In in Hx.
          rewrite in_app_iff in Hx. simpl in Hx. tauto. }
        rewrite (first_index_cons_neq l H0).
        apply -> Nat.succ_lt_mono. eapply IH; eauto. lia.
Qed.

Lemma fromkeys_first_seen (raw : list string) :
  first_seen_order raw (PyDict.keys (PyDict.fromkeys raw)).
Proof.
  rewrite keys_fromkeys. split; [ | split ].
  - apply unseen_NoDup.
  - intro x. rewrite unseen_In. simpl. tauto.
  - intros i j x y. apply unseen_order.
Qed.

(** ** The mappers return unless [exists()] raises *)

Lemma append_existing_total (w : world) (candidates : list Path) (tests : list string) :
  never_stat_error w -> exists out, append_existing w candidates tests = Ok out.
Proof.
  intro Hclean. revert tests.
  induction candidates as [ | c cs IH]; intro tests; cbn [append_existing];
    [ eauto | ].
  rewrite path_exists_on_disk by apply Hclean. cbn [ResultMonad.bind].
  destruct (on_disk w (PyPath.to_string c)); apply IH.
Qed.

Lemma python_tests_loop_total (w : world) (files : list Path) (tests : list string) :
  never_stat_error w -> exists out, python_tests_loop w files tests = Ok out.
Proof.
  intro Hclean. revert tests.
  induction files as [ | f fs IH]; intro tests; cbn [python_tests_loop];
    [ eauto | ].
  destruct (is_python_test f); [ apply IH | ].
  match goal with
  | |- context [append_existing w ?cs tests] =>
      destruct (append_existing_total cs tests Hclean) as [out ->]
  end.
  cbn [ResultMonad.bind]. apply IH.
Qed.

Lemma collect_python_tests_total (w : world) :
  never_stat_error w ->
  forall changed, exists raw, collect_python_tests w changed = Ok raw.
Proof.
  intros Hclean changed. now apply python_tests_loop_total.
Qed.

Lemma js_tests_loop_total (w : world) (files : list Path) (tests : list string) :
  never_stat_error w -> exists out, js_tests_loop w files tests = Ok out.
Proof.
  intro Hclean. revert tests.
  induction files as [ | f fs IH]; intro tests; cbn [js_tests_loop];
    [ eauto | ].
  destruct (is_js_test f); [ apply IH | ].
  rewrite path_exists_on_disk by apply Hclean. cbn [ResultMonad.bind].
  match goal with |- context [if ?b then _ else _] => destruct b end; apply IH.
Qed.

Lemma collect_js_tests_total (w : world) :
  never_stat_error w ->
  forall changed, exists raw, collect_js_tests w changed = Ok raw.
Proof.
  intros Hclean changed. now apply js_tests_loop_total.
Qed.

(** C5. The Python mapper and the JavaScript mapper return each path once;
    a path stands where it was first produced: the results hold exactly the
    paths collected before the final deduplication, ordered by first
    occurrence. Both mappers return when [exists()] does not raise. *)
Theorem mapped_tests_first_seen (w : world) (changed : list Path) :
  (forall tests,
      map_python_tests w changed = Ok tests ->
      exists raw,
        collect_python_tests w changed = Ok raw /\ first_seen_order raw tests)
  /\ (forall tests,
        map_js_tests w changed = Ok tests ->
        exists raw,
          collect_js_tests w changed = Ok raw /\ first_seen_order raw tests)
  /\ (never_stat_error w ->
      (exists tests, map_python_tests w changed = Ok tests)
      /\ (exists tests, map_js_tests w changed = Ok tests)).
Proof.
  unfold map_python_tests, map_js_tests, ResultMonad.bind.
  split; [ | split ].
  - intros tests. destruct (collect_python_tests w changed) as [raw | e];
      [ | discriminate ].
    intros [= <-]. exists raw. split; [ reflexivity | apply fromkeys_first_seen ].
  - intros tests. destruct (collect_js_tests w changed) as [raw | e];
      [ | discriminate ].
    intros [= <-]. exists raw. split; [ reflexivity | apply fromkeys_first_seen ].
  - intro Hclean.
    destruct (collect_python_tests_total Hclean changed) as [raw ->].
    destruct (collect_js_tests_total Hclean changed) as [raw' ->]. eauto.
Qed.

Lemma mapped_tests_first_seen_witness :
  collect_python_tests two_tests_on_disk python_changes
    = Ok ["b_test.py"; "tests/test_a.py"; "b_test.py"; "tests/test_a.py"]
  /\ map_python_tests two_tests_on_disk python_changes
    = Ok ["b_test.py"; "tests/test_a.py"]
  /\ NoDup ["b_test.py"; "tests/test_a.py"]
  /\ collect_js_tests two_tests_on_disk js_changes
    = Ok ["a.test.js"; "tests/b.test.ts"; "a.test.js"; "tests/b.test.ts"]
  /\ map_js_tests two_tests_on_disk js_changes
    = Ok ["a.test.js"; "tests/b.test.ts"]
  /\ NoDup ["a.test.js"; "tests/b.test.ts"].
Proof.
  split; [ reflexivity | split; [ reflexivity | split ] ].
  - destruct (proj1 (mapped_tests_first_seen two_tests_on_disk python_changes)
                    _ eq_refl) as [raw [_ [Hnodup _]]].
    exact Hnodup.
  - split; [ reflexivity | split; [ reflexivity | ] ].
    destruct (proj1 (proj2 (mapped_tests_first_seen two_tests_on_disk js_changes))
                    _ eq_refl) as [raw [_ [Hnodup _]]].
    exact Hnodup.
Defined.

(** ** Paths built from strings *)

Lemma has_char_app (c : ascii) (a b : string) :
  has_char c (a ++ b) = has_char c a || has_char c b.
Proof.
  induction a as [ | x a IH]; simpl; [ reflexivity | ].
  now rewrite IH, orb_assoc.
Qed.

Lemma split_without_sep (c : ascii) (x : string) :
  has_char c x = false -> PyStr.split c x = [x].
Proof.
  induction x as [ | a x IH]; simpl; [ reflexivity | ].
  intro H. apply orb_false_elim in H as [Ha Hx].
  rewrite Ha, (IH Hx). reflexivity.
Qed.

Lemma split_at_sep (c : ascii) (a b : string) :
  has_char c a = false ->
  PyStr.split c (a ++ String c b) = a :: PyStr.split c b.
Proof.
  induction a as [ | x a IH]; simpl.
  - intros _. now rewrite Ascii.eqb_refl.
  - intro H. apply orb_false_elim in H as [Hx Ha].
    rewrite Hx, (IH Ha). reflexivity.
Qed.

Lemma split_components (c : ascii) (s x : string) :
  In x (PyStr.split c s) -> has_char c x = false.
Proof.
  revert x. induction s as [ | a s IH]; simpl; intros x Hin.
  - destruct Hin as [<- | []]. reflexivity.
  - destruct (Ascii.eqb a c) eqn:Ha.
    + destruct Hin as [<- | Hin]; [ reflexivity | now apply IH ].
    + destruct (PyStr.split c s) as [ | y rest] eqn:Hs.
      * destruct Hin as [<- | []]. simpl. now rewrite Ha.
      * destruct Hin as [<- | Hin].
        -- simpl. rewrite Ha. apply IH. now left.
        -- apply IH. now right.
Qed.

Lemma last_in_or_default (l : list string) (d : string) :
  last l d = d \/ In (last l d) l.
Proof.
  induction l as [ | a l IH]; [ now left | ].
  destruct l as [ | b l]; [ right; now left | ].
  change (last (a :: b :: l) d) with (last (b :: l) d).
  destruct IH as [-> | H]; [ now left | right; now right ].
Qed.

Lemma name_without_sep (s : string) :
  has_char PyPath.sep (PyPath.name (PyPath.of_string s)) = false.
Proof.
  unfold PyPath.name, PyPath.of_string.
  destruct (PyPath.splitroot s) as [root rel]. cbn [path_tail].
  destruct (last_in_or_default
              (filter PyPath.keep_component (PyStr.split PyPath.sep rel)) "")
    as [-> | Hin]; [ reflexivity | ].
  apply filter_In in Hin as [Hin _].
  now apply split_components in Hin.
Qed.

Lemma take_without_char (c : ascii) (i : nat) (s : string) :
  has_char c s = false -> has_char c (PyStr.take i s) = false.
Proof.
  revert i. induction s as [ | a s IH]; intros [ | i] H; try reflexivity.
  simpl in *. apply orb_false_elim in H as [Ha Hs].
  now rewrite Ha, IH.
Qed.

Lemma stem_without_sep (s : string) :
  has_char PyPath.sep (PyPath.stem (PyPath.of_string s)) = false.
Proof.
  unfold PyPath.stem.
  destruct (PyPath.suffix_index (PyPath.of_string s)).
  - apply take_without_char, name_without_sep.
  - apply name_without_sep.
Qed.

Lemma startswith_sep_false (seg : string) :
  has_char PyPath.sep seg = false -> PyStr.startswith seg "/" = false.
Proof.
  destruct seg as [ | a seg]; [ reflexivity | ].
  intro H. cbn [has_char] in H. apply orb_false_elim in H as [Ha _].
  unfold PyStr.startswith. cbn [String.prefix].
  destruct (ascii_dec "/"%char a) as [<- | Hne]; [ | reflexivity ].
  unfold PyPath.sep in Ha. now rewrite Ascii.eqb_refl in Ha.
Qed.

(** [Path("tests") / seg] for a single, proper component [seg]. *)
Lemma tests_child (seg : string) :
  has_char PyPath.sep seg = false ->
  PyPath.keep_component seg = true ->
  PyPath.joinpath (PyPath.of_string "tests") seg
  = mkPath "" ["tests"; seg].
Proof.
  intros Hsep Hkeep.
  unfold PyPath.joinpath.
  change (PyPath.to_string (PyPath.of_string "tests")) with "tests".
  unfold PyPath.posix_join. rewrite (startswith_sep_false _ Hsep).
  change (negb (PyStr.truthy "tests") || PyStr.endswith "tests" "/") with false.
  cbv iota.
  unfold PyPath.of_string.
  change (PyPath.splitroot ("tests" ++ "/" ++ seg)%string)
    with ("", ("tests" ++ String PyPath.sep seg)%string).
  cbv beta iota.
  rewrite split_at_sep by reflexivity.
  rewrite (split_without_sep _ _ Hsep).
  cbn [filter]. rewrite Hkeep. reflexivity.
Qed.

Lemma tests_child_to_string (seg : string) :
  has_char PyPath.sep seg = false ->
  PyPath.keep_component seg = true ->
  PyPath.to_string (PyPath.joinpath (PyPath.of_string "tests") seg)
  = ("tests/" ++ seg)%string.
Proof.
  intros Hsep Hkeep. now rewrite tests_child.
Qed.

Lemma keep_test_prefixed (stem : string) :
  PyPath.keep_component ("test_" ++ stem ++ ".py") = true.
Proof. reflexivity. Qed.

Lemma keep_test_suffixed (stem : string) :
  PyPath.keep_component (stem ++ "_test.py") = true.
Proof.
  unfold PyPath.keep_component.
  destruct stem as [ | a [ | b stem]]; cbn [PyStr.truthy append String.eqb andb];
    [ reflexivity | | ]; now destruct (Ascii.eqb a ".").
Qed.

(** ** The Python mapper *)

Lemma test_prefixed_without_sep (s : string) :
  has_char PyPath.sep ("test_" ++ PyPath.stem (PyPath.of_string s) ++ ".py") = false.
Proof.
  rewrite !has_char_app, stem_without_sep. reflexivity.
Qed.

Lemma test_suffixed_without_sep (s : string) :
  has_char PyPath.sep (PyPath.stem (PyPath.of_string s) ++ "_test.py") = false.
Proof.
  rewrite has_char_app, stem_without_sep. reflexivity.
Qed.

Lemma append_existing_filter (w : world) (candidates : list Path)
      (tests out : list string) :
  append_existing w candidates tests = Ok out ->
  out = tests ++ filter (on_disk w) (map PyPath.to_string candidates).
Proof.
  revert tests.
  induction candidates as [ | c cs IH]; intro tests;
    cbn [append_existing map filter].
  - intros [= <-]. now rewrite app_nil_r.
  - destruct (path_exists w c) as [found | e] eqn:Hc; [ | discriminate ].
    apply path_exists_value in Hc as [_ ->]. cbn [ResultMonad.bind].
    destruct (on_disk w (PyPath.to_string c)); intro H; apply IH in H as ->;
      now rewrite <- ?app_assoc.
Qed.

(** The two candidates of a changed source file, as the loop sees them. *)
Lemma append_existing_candidates (w : world) (s : string) (tests out : list string) :
  let stem := PyPath.stem (PyPath.of_string s) in
  append_existing w
    [ PyPath.joinpath (PyPath.of_string "tests") ("test_" ++ stem ++ ".py");
      PyPath.joinpath (PyPath.of_string "tests") (stem ++ "_test.py") ]
    tests
  = Ok out ->
  out = tests ++ filter (on_disk w)
                        [ ("tests/test_" ++ stem ++ ".py")%string;
                          ("tests/" ++ stem ++ "_test.py")%string ].
Proof.
  intros stem H. subst stem. apply append_existing_filter in H as ->.
  cbn [map].
  rewrite (tests_child_to_string _ (test_prefixed_without_sep s)
                                 (keep_test_prefixed _)).
  rewrite (tests_child_to_string _ (test_suffixed_without_sep s)
                                 (keep_test_suffixed _)).
  reflexivity.
Qed.

Lemma python_tests_loop_targets (w : world) (names : list string)
      (tests out : list string) :
  python_tests_loop w
    (filter (fun f => str_in (PyPath.suffix f) PYTHON_TEST_EXTENSIONS)
            (map PyPath.of_string names))
    tests
  = Ok out ->
  out = tests ++ flat_map (python_targets w) (map PyPath.of_string names).
Proof.
  revert tests. induction names as [ | s names IH]; intro tests.
  - simpl. intros [= <-]. now rewrite app_nil_r.
  - cbn [map filter flat_map]. unfold python_targets at 1.
    unfold str_in at 1, PYTHON_TEST_EXTENSIONS. cbn [existsb].
    rewrite orb_false_r.
    destruct (String.eqb (PyPath.suffix (PyPath.of_string s)) ".py");
      cbn [negb]; [ | apply IH ].
    cbn [python_tests_loop]. unfold is_python_test.
    destruct (str_in "tests" (PyPath.parts (PyPath.of_string s))
              || PyStr.startswith (PyPath.stem (PyPath.of_string s)) "test_"
              || PyStr.endswith (PyPath.stem (PyPath.of_string s)) "_test").
    + intro H. apply IH in H as ->. now rewrite <- app_assoc.
    + match goal with
      | |- context [append_existing w ?cs tests] =>
          destruct (append_existing w cs tests) as [tests' | e] eqn:Hc;
            [ | discriminate ]
      end.
      apply append_existing_candidates in Hc as ->. cbn [ResultMonad.bind].
      intro H. apply IH in H as ->. now rewrite <- app_assoc.
Qed.

Lemma collect_python_tests_targets (w : world) (names : list string)
      (raw : list string) :
  collect_python_tests w (map PyPath.of_string names) = Ok raw ->
  raw = flat_map (python_targets w) (map PyPath.of_string names).
Proof.
  unfold collect_python_tests. intro H.
  now apply python_tests_loop_targets in H.
Qed.



(** ** Focus orchestration *)

Lemma dispatched_app (l1 l2 : list event) :
  dispatched (l1 ++ l2) = dispatched l1 ++ dispatched l2.
Proof.
  induction l1 as [ | [line | r t | c o] l1 IH]; simpl; now rewrite ?IH.
Qed.

(** Resolving the runner shows at most the detection line. *)
Lemma select_runner_cases (detect : result string) (args : focus_args) :
  (exists r, run (select_runner detect args) = (Ok r, [])
             /\ forall d, run (select_runner d args) = (Ok r, []))
  \/ (exists r, detect = Ok r
                /\ run (select_runner detect args)
                   = (Ok (Some r), [Print (msg_auto_detected r)]))
  \/ (exists e, detect = Raise e
                /\ run (select_runner detect args) = (Raise e, [])).
Proof.
  unfold run, select_runner, Log.bind, Log.lift, Log.emit, Log.ret.
  destruct (arg_auto args
            || negb (opt_truthy (if arg_pytest args then Some "pytest"
                                 else arg_runner args))).
  - destruct detect as [r | e]; [ right; left | right; right ]; eauto.
  - left. eauto.
Qed.

Lemma legacy_select_runner_cases (detect : result string) (args : focus_args) :
  (exists r, run (Legacy.select_runner detect args) = (Ok r, [])
             /\ forall d, run (Legacy.select_runner d args) = (Ok r, []))
  \/ (exists r, detect = Ok r
                /\ run (Legacy.select_runner detect args)
                   = (Ok (Some r), [Print (msg_auto_detected r)]))
  \/ (exists e, detect = Raise e
                /\ run (Legacy.select_runner detect args) = (Raise e, [])).
Proof.
  unfold run, Legacy.select_runner, Log.bind, Log.lift, Log.emit, Log.ret.
  destruct (opt_truthy (arg_runner args)); [ left; eauto | ].
  destruct (arg_pytest args); [ left; eauto | ].
  rewrite orb_true_r.
  destruct detect as [r | e]; [ right; left | right; right ]; eauto.
Qed.

Lemma select_runner_dispatches_nothing detect args r shown :
  run (select_runner detect args) = (r, shown) -> dispatched shown = [].
Proof.
  destruct (select_runner_cases detect args)
    as [[r0 [H _]] | [[r0 [_ H]] | [e [_ H]]]];
    rewrite H; intros [= _ <-]; reflexivity.
Qed.

Lemma legacy_select_runner_dispatches_nothing detect args r shown :
  run (Legacy.select_runner detect args) = (r, shown) -> dispatched shown = [].
Proof.
  destruct (legacy_select_runner_cases detect args)
    as [[r0 [H _]] | [[r0 [_ H]] | [e [_ H]]]];
    rewrite H; intros [= _ <-]; reflexivity.
Qed.

(** The shared tail of the two commands when nothing is selected. *)
Lemma run_focus_abort (w : world) (args : focus_args) (runner : string)
      (shown : list event) :
  opt_truthy (arg_k args) = false ->
  select_targets w runner = Ok [] ->
  run_focus w args runner shown = (Ok tt, shown ++ [Print msg_no_changed_tests]).
Proof.
  intros Hk Htargets.
  unfold run_focus, Log.bind, Log.lift, Log.emit.
  rewrite Htargets, Hk. reflexivity.
Qed.

(** C7. When the runner is resolved and supported, the mapped target list
    is empty and no filter expression is given, both focus commands return
    after showing, as their last line, that no changed tests were detected;
    nothing is handed to the command executor. *)
Theorem focus_abort_without_targets
  (w : world) (args : focus_args) (runner : string) :
  opt_truthy (arg_k args) = false ->
  str_in runner SUPPORTED_RUNNERS = true ->
  select_targets w runner = Ok [] ->
  (forall shown,
      run (select_runner (detect_test_runner w) args) = (Ok (Some runner), shown) ->
      run (focus_command w args)
        = (Ok tt, shown ++ [Print msg_no_changed_tests])
      /\ dispatched (snd (run (focus_command w args))) = [])
  /\ (forall shown,
      run (Legacy.select_runner (detect_test_runner w) args)
        = (Ok (Some runner), shown) ->
      run (Legacy.cmd_focus w args)
        = (Ok tt, shown ++ [Print msg_no_changed_tests])
      /\ dispatched (snd (run (Legacy.cmd_focus w args))) = []).
Proof.
  intros Hk Hsupported Htargets. split; intros shown Hselect.
  - assert (Hrun : run (focus_command w args)
                   = (Ok tt, shown ++ [Print msg_no_changed_tests])).
    { unfold run, focus_command, Log.bind in *.
      rewrite Hselect, Hsupported. now apply run_focus_abort. }
    split; [ exact Hrun | ].
    rewrite Hrun. cbn [snd]. rewrite dispatched_app.
    now rewrite (select_runner_dispatches_nothing _ _ Hselect).
  - assert (Hrun : run (Legacy.cmd_focus w args)
                   = (Ok tt, shown ++ [Print msg_no_changed_tests])).
    { unfold run, Legacy.cmd_focus, Log.bind in *.
      rewrite Hselect, Hsupported. now apply run_focus_abort. }
    split; [ exact Hrun | ].
    rewrite Hrun. cbn [snd]. rewrite dispatched_app.
    now rewrite (legacy_select_runner_dispatches_nothing _ _ Hselect).
Qed.

Lemma focus_abort_without_targets_witness :
  run (focus_command empty_world no_options)
    = (Ok tt, [Print "Auto-detected test runner: pytest";
               Print "No changed tests detected. Run full suite or pass -k/--runner."])
  /\ run (Legacy.cmd_focus empty_world no_options)
    = (Ok tt, [Print "Auto-detected test runner: pytest";
               Print "No changed tests detected. Run full suite or pass -k/--runner."]).
Proof.
  destruct (@focus_abort_without_targets empty_world no_options "pytest"
              eq_refl eq_refl eq_refl) as [Hpkg Hlegacy].
  split.
  - exact (proj1 (Hpkg [Print "Auto-detected test runner: pytest"] eq_refl)).
  - exact (proj1 (Hlegacy [Print "Auto-detected test runner: pytest"] eq_refl)).
Defined.

(** *** Which runner is resolved *)

(** The legacy command keeps a forced runner, whatever the other flags,
    and does not consult the detector. *)
Lemma legacy_forced_runner_wins (args : focus_args) :
  opt_truthy (arg_runner args) || arg_pytest args = true ->
  forall detect,
    run (Legacy.select_runner detect args)
    = (Ok (if opt_truthy (arg_runner args) then arg_runner args else Some "pytest"),
       []).
Proof.
  intros Hforced detect. unfold run, Legacy.select_runner, Log.ret.
  destruct (opt_truthy (arg_runner args)); [ reflexivity | ].
  simpl in Hforced. now rewrite Hforced.
Qed.

(** The package command keeps a forced runner when [--auto] is not given,
    and does not consult the detector then. *)
Lemma forced_runner_wins_without_auto (args : focus_args) :
  opt_truthy (arg_runner args) || arg_pytest args = true ->
  arg_auto args = false ->
  forall detect,
    run (select_runner detect args)
    = (Ok (if arg_pytest args then Some "pytest" else arg_runner args), []).
Proof.
  intros Hforced Hauto detect. unfold run, select_runner, Log.ret.
  rewrite Hauto.
  destruct (arg_pytest args); [ reflexivity | ].
  rewrite orb_false_r in Hforced. now rewrite Hforced.
Qed.

(** In both commands the detector is consulted only when [--auto] is given
    or no runner is forced. *)
Lemma detector_consulted_only_if (args : focus_args) (d1 d2 : result string) :
  (run (select_runner d1 args) <> run (select_runner d2 args)
   \/ run (Legacy.select_runner d1 args) <> run (Legacy.select_runner d2 args)) ->
  arg_auto args = true
  \/ opt_truthy (arg_runner args) || arg_pytest args = false.
Proof.
  destruct (arg_auto args) eqn:Hauto; [ now left | right ].
  destruct (opt_truthy (arg_runner args) || arg_pytest args) eqn:Hforced;
    [ exfalso | reflexivity ].
  destruct H as [H | H]; apply H.
  - now rewrite !forced_runner_wins_without_auto.
  - now rewrite !legacy_forced_runner_wins.
Qed.

(** C8, at inputs the code can receive: with [--runner jest --auto] the
    package command consults the detector and goes on with what it
    returns, or raises what it raises, and with [--pytest --auto] likewise,
    where the legacy command keeps the forced runner without consulting
    the detector. *)
Theorem select_runner_auto_overrides_forced :
  (forall r, run (select_runner (Ok r) forced_jest_auto)
             = (Ok (Some r), [Print (msg_auto_detected r)]))
  /\ (forall e, run (select_runner (Raise e) forced_jest_auto) = (Raise e, []))
  /\ run (select_runner (detect_test_runner empty_world) forced_jest_auto)
     = (Ok (Some "pytest"), [Print "Auto-detected test runner: pytest"])
  /\ run (select_runner (detect_test_runner jest_with_markers) pytest_auto)
     = (Ok (Some "jest"), [Print "Auto-detected test runner: jest"])
  /\ (forall detect, run (Legacy.select_runner detect forced_jest_auto)
                     = (Ok (Some "jest"), []))
  /\ (forall detect, run (Legacy.select_runner detect pytest_auto)
                     = (Ok (Some "pytest"), [])).
Proof.
  repeat (split; [ reflexivity | ]). reflexivity.
Qed.

(** Without a conflict between the selection flags the two commands
    resolve the runner alike, whatever the detector does. *)
Lemma select_runner_agree (detect : result string) (args : focus_args) :
  selection_conflict args = false ->
  run (select_runner detect args) = run (Legacy.select_runner detect args).
Proof.
  unfold selection_conflict, run, select_runner, Legacy.select_runner.
  destruct (arg_runner args) as [r | ]; cbn [opt_truthy];
    [ destruct (PyStr.truthy r) eqn:Hr | ];
    destruct (arg_pytest args); destruct (arg_auto args);
    cbn [orb andb negb opt_truthy PyStr.truthy]; rewrite ?Hr;
    try discriminate; try reflexivity.
  destruct (String.eqb_spec r "pytest") as [-> | _];
    [ reflexivity | discriminate ].
Qed.

(** C10, amended. When the selection flags do not contradict each other,
    [focus_command] and the legacy [cmd_focus] resolve the same runner, end
    alike and hand the same commands to the command executor, whatever the
    working directory and the version-control output. *)
Theorem focus_commands_agree (w : world) (args : focus_args) :
  selection_conflict args = false ->
  run (select_runner (detect_test_runner w) args)
    = run (Legacy.select_runner (detect_test_runner w) args)
  /\ fst (run (focus_command w args)) = fst (run (Legacy.cmd_focus w args))
  /\ dispatched (snd (run (focus_command w args)))
     = dispatched (snd (run (Legacy.cmd_focus w args))).
Proof.
  intro Hflags.
  pose proof (select_runner_agree (detect_test_runner w) args Hflags) as Hsel.
  split; [ exact Hsel | ].
  unfold run, focus_command, Legacy.cmd_focus, Log.bind in *.
  rewrite <- Hsel.
  destruct (select_runner (detect_test_runner w) args []) as [[[r | ] | e] shown];
    try (split; reflexivity).
  - destruct (str_in r SUPPORTED_RUNNERS); [ split; reflexivity | ].
    unfold Log.emit. cbn [fst snd]. now rewrite !dispatched_app.
  - unfold Log.emit. cbn [fst snd]. now rewrite !dispatched_app.
Qed.

Lemma focus_commands_agree_witness :
  run (focus_command foo_changed runner_nose)
    = (Ok tt, [PrintRunning "nose" ["tests/test_foo.py"];
               CmdRun ["nosetests"; "tests/test_foo.py"] "out"])
  /\ fst (run (focus_command foo_changed runner_nose))
     = fst (run (Legacy.cmd_focus foo_changed runner_nose))
  /\ dispatched (snd (run (focus_command foo_changed runner_nose)))
     = dispatched (snd (run (Legacy.cmd_focus foo_changed runner_nose))).
Proof.
  split; [ reflexivity | ].
  exact (proj2 (@focus_commands_agree foo_changed runner_nose eq_refl)).
Defined.

(** C10 as stated fails: with contradicting selection flags the two
    commands resolve different runners and hand different commands to the
    executor. *)
Lemma focus_commands_differ :
  run (focus_command empty_world forced_jest_pytest)
    = (Ok tt, [PrintRunning "pytest" ["<full-suite>"];
               CmdRun ["pytest"; "-q"; "-k"; "slow"] "out"])
  /\ run (Legacy.cmd_focus empty_world forced_jest_pytest)
    = (Ok tt, [PrintRunning "jest" ["<full-suite>"];
               CmdRun ["npx"; "jest"; "--testNamePattern"; "slow"] "out"])
  /\ dispatched (snd (run (focus_command empty_world forced_jest_pytest)))
     <> dispatched (snd (run (Legacy.cmd_focus empty_world forced_jest_pytest)))
  /\ dispatched (snd (run (focus_command empty_world forced_jest_auto)))
     <> dispatched (snd (run (Legacy.cmd_focus empty_world forced_jest_auto)))
  /\ dispatched (snd (run (focus_command jest_with_markers pytest_auto)))
     <> dispatched (snd (run (Legacy.cmd_focus jest_with_markers pytest_auto))).
Proof.
  split; [ reflexivity | split; [ reflexivity | ] ].
  repeat split; intro H; discriminate H.
Qed.

(* ================================================================== *)
(** * Further properties *)

(** ** Redaction *)

Lemma redacted_not_sensitive : Redact.sensitive Redact.REDACTED = false.
Proof. reflexivity. Qed.

Lemma sanitize_value_twice (v : pyval) :
  Redact.sanitize_value (Redact.sanitize_value v) = Redact.sanitize_value v.
Proof.
  induction v as [ | b | n | x | s | items IH | entries IH]
    using pyval_nested_ind; try reflexivity.
  - cbn [Redact.sanitize_value].
    destruct (Redact.sensitive s) eqn:Hs; cbn [Redact.sanitize_value].
    + now rewrite redacted_not_sensitive.
    + now rewrite Hs.
  - cbn [Redact.sanitize_value]. f_equal. rewrite map_map.
    apply map_ext_in. intros x Hx.
    rewrite Forall_forall in IH. now apply IH.
  - cbn [Redact.sanitize_value]. f_equal. rewrite map_map.
    apply map_ext_in. intros kv Hkv. cbn [fst snd].
    rewrite Forall_forall in IH. now rewrite (IH kv Hkv).
Qed.

Lemma sanitize_value_strings_clean (v : pyval) :
  all_strings (fun s => negb (Redact.sensitive s)) (Redact.sanitize_value v) = true.
Proof.
  induction v as [ | b | n | x | s | items IH | entries IH]
    using pyval_nested_ind; try reflexivity.
  - cbn [Redact.sanitize_value].
    destruct (Redact.sensitive s) eqn:Hs; cbn [all_strings].
    + now rewrite redacted_not_sensitive.
    + now rewrite Hs.
  - cbn [Redact.sanitize_value all_strings]. rewrite forallb_forall.
    intros y Hy. apply in_map_iff in Hy as [x [<- Hx]].
    rewrite Forall_forall in IH. now apply IH.
  - cbn [Redact.sanitize_value all_strings]. rewrite forallb_forall.
    intros y Hy. apply in_map_iff in Hy as [kv [<- Hkv]]. cbn [snd].
    rewrite Forall_forall in IH. now apply IH.
Qed.

Lemma lookup_map_values (f : pyval -> pyval) (key : string) (d : pydict) :
  PyDict.lookup key (map (fun kv => (fst kv, f (snd kv))) d)
  = option_map f (PyDict.lookup key d).
Proof.
  induction d as [ | [k v] d IH]; [ reflexivity | ].
  cbn [map fst snd PyDict.lookup].
  now destruct (String.eqb k key).
Qed.

(** [sanitize_value] goes by the text of a value alone: a dictionary keeps
    its keys in order, and under every key stands the redaction of what
    stood there, so a harmless text survives under any key. *)
Theorem sanitize_value_dict (entries : pydict) :
  exists out,
    Redact.sanitize_value (PyDict entries) = PyDict out
    /\ PyDict.keys out = PyDict.keys entries
    /\ (forall key,
          PyDict.lookup key out
          = option_map Redact.sanitize_value (PyDict.lookup key entries))
    /\ (forall key s,
          PyDict.lookup key entries = Some (PyString s) ->
          Redact.sensitive s = false ->
          PyDict.lookup key out = Some (PyString s)).
Proof.
  eexists. split; [ reflexivity | split; [ | split ] ].
  - unfold PyDict.keys. rewrite map_map. reflexivity.
  - intro key. apply lookup_map_values.
  - intros key s Hkey Hs. rewrite lookup_map_values, Hkey.
    cbn [option_map Redact.sanitize_value]. now rewrite Hs.
Qed.

Lemma sanitize_value_dict_witness :
  Redact.sensitive "password" = true
  /\ Redact.sanitize_value (PyDict sample_payload)
     = PyDict [("password", PyString "hunter2");
               ("nested", PyList [PyString "***REDACTED***"; PyString "ok"])].
Proof.
  split; [ reflexivity | ].
  destruct (sanitize_value_dict sample_payload) as [out [Hout _]].
  rewrite Hout. injection Hout as <-. reflexivity.
Defined.

Lemma setitem_fresh (key : string) (v : pyval) (d : pydict) :
  ~ In key (PyDict.keys d) -> PyDict.setitem key v d = d ++ [(key, v)].
Proof.
  induction d as [ | [k v0] d IH]; intro Hfresh; [ reflexivity | ].
  cbn [PyDict.setitem app]. cbn [PyDict.keys map fst In] in Hfresh.
  destruct (String.eqb_spec k key) as [-> | _]; [ tauto | ].
  rewrite IH; [ reflexivity | ]. intro H. apply Hfresh. now right.
Qed.

Lemma sanitize_env_loop_fresh (items sanitized : pydict) :
  NoDup (PyDict.keys sanitized ++ PyDict.keys items) ->
  Redact.sanitize_env_loop items sanitized
  = sanitized ++ map (fun kv => (fst kv, sanitized_entry (fst kv) (snd kv))) items.
Proof.
  revert sanitized.
  induction items as [ | [key val] items IH]; intros sanitized Hnodup.
  - cbn. now rewrite app_nil_r.
  - cbn [Redact.sanitize_env_loop map fst snd].
    assert (Hfresh : ~ In key (PyDict.keys sanitized)).
    { cbn [PyDict.keys map fst] in Hnodup.
      apply NoDup_remove_2 in Hnodup. rewrite in_app_iff in Hnodup. tauto. }
    assert (Hnext : forall v,
               NoDup (PyDict.keys (sanitized ++ [(key, v)]) ++ PyDict.keys items)).
    { intro v. unfold PyDict.keys in *. rewrite map_app, <- app_assoc. exact Hnodup. }
    unfold sanitized_entry at 1.
    destruct (Redact.sensitive key);
      rewrite (setitem_fresh key _ sanitized Hfresh), (IH _ (Hnext _)),
        <- app_assoc;
      reflexivity.
Qed.

(** For an environment (a dictionary: distinct keys) [sanitize_env] keeps
    the keys in order; the value under a sensitive key becomes the marker
    whatever it was, any other value is redacted by its own text. *)
Theorem sanitize_env_entries (env : pydict) :
  NoDup (PyDict.keys env) ->
  Redact.sanitize_env env
  = map (fun kv => (fst kv, sanitized_entry (fst kv) (snd kv))) env.
Proof.
  intro Hnodup. unfold Redact.sanitize_env.
  now rewrite sanitize_env_loop_fresh.
Qed.

Lemma NoDup_sample_env : NoDup (PyDict.keys sample_env).
Proof.
  repeat constructor; simpl; intuition discriminate.
Defined.

Lemma sanitize_env_entries_witness :
  Redact.sanitize_env sample_env
  = [("API_KEY", PyString "***REDACTED***");
     ("normal", PyString "value");
     ("secret_token", PyString "***REDACTED***")].
Proof.
  rewrite (sanitize_env_entries sample_env NoDup_sample_env). reflexivity.
Defined.

Lemma sanitized_entry_idempotent (key : string) (val : pyval) :
  sanitized_entry key (sanitized_entry key val) = sanitized_entry key val.
Proof.
  unfold sanitized_entry.
  destruct (Redact.sensitive key); [ reflexivity | ].
  apply sanitize_value_twice.
Qed.

(** Redacting twice gives what redacting once gives, for a value and for
    an environment (a dictionary: distinct keys). *)
Theorem sanitize_idempotent :
  (forall v,
      Redact.sanitize_value (Redact.sanitize_value v) = Redact.sanitize_value v)
  /\ (forall env,
        NoDup (PyDict.keys env) ->
        Redact.sanitize_env (Redact.sanitize_env env) = Redact.sanitize_env env).
Proof.
  split; [ exact sanitize_value_twice | ].
  intros env Hnodup.
  unfold Redact.sanitize_env.
  rewrite (sanitize_env_loop_fresh env []) by exact Hnodup. cbn [app].
  rewrite sanitize_env_loop_fresh.
  - cbn [app]. rewrite map_map. apply map_ext. intros [k v]. cbn [fst snd].
    now rewrite sanitized_entry_idempotent.
  - unfold PyDict.keys in *. cbn [map app]. rewrite map_map. exact Hnodup.
Qed.

Lemma sanitize_idempotent_witness :
  Redact.sanitize_env (Redact.sanitize_env sample_env)
  = Redact.sanitize_env sample_env.
Proof.
  exact (proj2 sanitize_idempotent sample_env NoDup_sample_env).
Defined.

Lemma lookup_In (key : string) (v : pyval) (d : pydict) :
  PyDict.lookup key d = Some v -> In (key, v) d.
Proof.
  induction d as [ | [k v0] d IH]; [ discriminate | ].
  cbn [PyDict.lookup].
  destruct (String.eqb_spec k key) as [-> | _].
  - intros [= ->]. now left.
  - intro H. right. now apply IH.
Qed.

Lemma setitem_Forall (Q : string * pyval -> Prop) key v (d : pydict) :
  Q (key, v) -> Forall Q d -> Forall Q (PyDict.setitem key v d).
Proof.
  intros Hnew Hd.
  induction Hd as [ | [k v0] d Hk Hd IH]; cbn [PyDict.setitem].
  - now constructor.
  - destruct (String.eqb_spec k key) as [-> | _]; constructor; auto.
Qed.

(** No secret survives the redaction: after [sanitize_value] no string
    value, at any depth, holds a sensitive word; and whatever is found
    under a key of the result of [sanitize_env] holds none either, and is
    the marker when the key itself is sensitive. *)
Theorem sanitize_safe :
  (forall v,
      all_strings (fun s => negb (Redact.sensitive s)) (Redact.sanitize_value v)
      = true)
  /\ (forall env key v,
        PyDict.lookup key (Redact.sanitize_env env) = Some v ->
        all_strings (fun s => negb (Redact.sensitive s)) v = true
        /\ (Redact.sensitive key = true -> v = PyString Redact.REDACTED)).
Proof.
  split; [ exact sanitize_value_strings_clean | ].
  intros env key v Hlookup. apply lookup_In in Hlookup.
  set (Q := fun kv : string * pyval =>
              all_strings (fun s => negb (Redact.sensitive s)) (snd kv) = true
              /\ (Redact.sensitive (fst kv) = true
                  -> snd kv = PyString Redact.REDACTED)).
  assert (Hall : forall items acc,
             Forall Q acc -> Forall Q (Redact.sanitize_env_loop items acc)).
  { induction items as [ | [k val] items IH]; intros acc Hacc; [ exact Hacc | ].
    cbn [Redact.sanitize_env_loop].
    destruct (Redact.sensitive k) eqn:Hk; apply IH; apply setitem_Forall;
      auto; unfold Q; cbn [fst snd]; split; auto.
    - apply sanitize_value_strings_clean.
    - rewrite Hk. discriminate. }
  specialize (Hall env [] (Forall_nil Q)).
  rewrite Forall_forall in Hall. exact (Hall _ Hlookup).
Qed.

Lemma sanitize_safe_witness :
  PyDict.lookup "secret_token" (Redact.sanitize_env sample_env)
  = Some (PyString "***REDACTED***")
  /\ all_strings (fun s => negb (Redact.sensitive s)) (PyString "***REDACTED***")
     = true
  /\ PyString "***REDACTED***" = PyString Redact.REDACTED.
Proof.
  split; [ reflexivity | ].
  destruct (proj2 sanitize_safe sample_env "secret_token"
              (PyString "***REDACTED***") eq_refl) as [Hclean Hmarker].
  split; [ exact Hclean | exact (Hmarker eq_refl) ].
Defined.

Lemma upper_app (a b : string) :
  Redact.upper (a ++ b) = Redact.upper a ++ Redact.upper b.
Proof.
  induction a as [ | x a IH]; [ reflexivity | ].
  cbn [append Redact.upper]. now rewrite IH, app_assoc.
Qed.

Lemma starts_with_app (needle rest : list N) :
  Redact.starts_with needle (needle ++ rest) = true.
Proof.
  induction needle as [ | x needle IH]; [ reflexivity | ].
  cbn [app Redact.starts_with]. now rewrite N.eqb_refl, IH.
Qed.

Lemma occurs_after (needle before hay : list N) :
  Redact.occurs needle hay = true -> Redact.occurs needle (before ++ hay) = true.
Proof.
  intro H. induction before as [ | x before IH]; [ exact H | ].
  cbn [app Redact.occurs]. rewrite IH. apply orb_true_r.
Qed.

Lemma occurs_inside (needle before after : list N) :
  Redact.occurs needle (before ++ needle ++ after) = true.
Proof.
  apply occurs_after.
  destruct (needle ++ after) eqn:Heq; cbn [Redact.occurs];
    rewrite <- Heq, starts_with_app; reflexivity.
Qed.

(** A text that holds one of the sensitive words, in any mix of upper and
    lower case and anywhere inside, is replaced by the marker. *)
Theorem sensitive_word_redacted (before word after token : string) :
  In token Redact.SENSITIVE_KEYS ->
  Redact.upper word = Redact.points token ->
  Redact.sensitive (before ++ word ++ after) = true
  /\ Redact.sanitize_value (PyString (before ++ word ++ after))
     = PyString Redact.REDACTED.
Proof.
  intros Htoken Hword.
  assert (Hs : Redact.sensitive (before ++ word ++ after) = true).
  { unfold Redact.sensitive. apply existsb_exists. exists token.
    split; [ exact Htoken | ].
    rewrite !upper_app, Hword. apply occurs_inside. }
  split; [ exact Hs | ]. cbn [Redact.sanitize_value]. now rewrite Hs.
Qed.

Lemma sensitive_word_redacted_witness :
  Redact.sanitize_value (PyString "my-Api_Key=1") = PyString "***REDACTED***"
  /\ Redact.sanitize_value (PyString "monkey") = PyString "***REDACTED***".
Proof.
  split.
  - refine (proj2 (@sensitive_word_redacted "my-Api_" "Key" "=1" "KEY" _ eq_refl)).
    now left.
  - refine (proj2 (@sensitive_word_redacted "mon" "key" "" "KEY" _ eq_refl)).
    now left.
Defined.

(** ** More on runner detection *)

(** For a manifest object whose [dependencies], [devDependencies] and
    [scripts] members are usable: when neither dependency table has the
    key [jest] and the commands joined by spaces do not contain [jest],
    while one of the tables has the key [mocha] or the joined commands
    contain [mocha], [detect_test_runner] returns [mocha], whatever marker
    files are present. *)
Theorem detect_mocha
  (w : world) (d dependencies dev scripts : pydict) (commands : list string) :
  stat_error w "package.json" = None ->
  package_json_file w = Some (Ok (PyDict d)) ->
  section_of d "dependencies" dependencies ->
  section_of d "devDependencies" dev ->
  section_of d "scripts" scripts ->
  script_commands scripts commands ->
  ~ In "jest" (PyDict.keys dependencies) ->
  ~ In "jest" (PyDict.keys dev) ->
  PyStr.contains "jest" (PyStr.join " " commands) = false ->
  In "mocha" (PyDict.keys dependencies)
  \/ In "mocha" (PyDict.keys dev)
  \/ PyStr.contains "mocha" (PyStr.join " " commands) = true ->
  detect_test_runner w = Ok "mocha".
Proof.
  intros Hstat Hfile Hdeps Hdev Hscripts Hcommands Hj1 Hj2 Hj3 Hmocha.
  unfold detect_test_runner.
  rewrite (@read_parsed_manifest w _ Hstat Hfile). cbn [ResultMonad.bind].
  rewrite (@manifest_runner_of_sections _ _ _ _ _ Hdeps Hdev Hscripts Hcommands).
  rewrite (mem_In_false _ _ Hj1), (mem_In_false _ _ Hj2), Hj3. cbn [orb].
  assert (Hev : PyDict.mem "mocha" dependencies || PyDict.mem "mocha" dev
                || PyStr.contains "mocha" (PyStr.join " " commands) = true).
  { destruct Hmocha as [H | [H | H]].
    - apply mem_In in H. now rewrite H.
    - apply mem_In in H. rewrite H. now rewrite orb_true_r.
    - rewrite H. apply orb_true_r. }
  now rewrite Hev.
Qed.

Lemma detect_mocha_witness :
  on_disk mocha_script "pytest.ini" = true
  /\ detect_test_runner mocha_script = Ok "mocha"
  /\ on_disk mocha_dev_dependency "conftest.py" = true
  /\ detect_test_runner mocha_dev_dependency = Ok "mocha".
Proof.
  split; [ reflexivity | split; [ | split; [ reflexivity | ] ] ].
  - apply (@detect_mocha mocha_script
             [("scripts", PyDict [("ci", PyString "mocha --reporter spec")])]
             [] [] [("ci", PyString "mocha --reporter spec")]
             ["mocha --reporter spec"]);
      try reflexivity; try (now left); cbn; intuition discriminate.
  - apply (@detect_mocha mocha_dev_dependency
             [("name", PyString "app");
              ("devDependencies", PyDict [("mocha", PyString "^10.0.0")])]
             [] [("mocha", PyString "^10.0.0")] [] []);
      try reflexivity; try (now left); cbn; intuition discriminate.
Defined.

Lemma marker_same (w1 w2 : world) (marker : Path) :
  stat_error w1 (PyPath.to_string marker) = stat_error w2 (PyPath.to_string marker) ->
  lookup_node (PyPath.to_string marker) (files w1)
  = lookup_node (PyPath.to_string marker) (files w2) ->
  path_exists w1 marker = path_exists w2 marker
  /\ forall needle, file_contains w1 marker needle = file_contains w2 marker needle.
Proof.
  intros Hstat Hnode. unfold path_exists, file_contains, read_text.
  rewrite Hstat, Hnode. split; reflexivity.
Qed.

Lemma scan_pytest_markers_same (w1 w2 : world) (markers : list Path) :
  (forall m, In m markers ->
     stat_error w1 (PyPath.to_string m) = stat_error w2 (PyPath.to_string m)
     /\ lookup_node (PyPath.to_string m) (files w1)
        = lookup_node (PyPath.to_string m) (files w2)) ->
  scan_pytest_markers w1 markers = scan_pytest_markers w2 markers.
Proof.
  induction markers as [ | m ms IH]; intro Hsame; [ reflexivity | ].
  cbn [scan_pytest_markers].
  destruct (Hsame m (or_introl eq_refl)) as [Hstat Hnode].
  destruct (marker_same w1 w2 m Hstat Hnode) as [-> Hcontains].
  rewrite Hcontains, IH by (intros m' Hm'; apply Hsame; now right).
  reflexivity.
Qed.

Lemma scan_nose_markers_same (w1 w2 : world) (markers : list Path) :
  (forall m, In m markers ->
     stat_error w1 (PyPath.to_string m) = stat_error w2 (PyPath.to_string m)
     /\ lookup_node (PyPath.to_string m) (files w1)
        = lookup_node (PyPath.to_string m) (files w2)) ->
  scan_nose_markers w1 markers = scan_nose_markers w2 markers.
Proof.
  induction markers as [ | m ms IH]; intro Hsame; [ reflexivity | ].
  cbn [scan_nose_markers].
  destruct (Hsame m (or_introl eq_refl)) as [Hstat Hnode].
  destruct (marker_same w1 w2 m Hstat Hnode) as [-> Hcontains].
  rewrite Hcontains, IH by (intros m' Hm'; apply Hsame; now right).
  reflexivity.
Qed.

Lemma markers_named (m : Path) :
  In m pytest_markers \/ In m nose_markers ->
  In (PyPath.to_string m) marker_names.
Proof.
  intros [Hm | Hm]; cbn in Hm;
    repeat (destruct Hm as [<- | Hm]; [ cbn; tauto | ]); contradiction.
Qed.

(** A [package.json] that cannot be read or parsed, and one whose parsed
    value is empty ([{}], [[]], [null], [0], [false] or an empty string),
    count as no [package.json] when [exists()] does not raise on it: the
    detection goes by the marker files alone, and returns one of the four
    runners when [exists()] raises on none of them. *)
Theorem detect_ignores_unusable_manifest (w : world) :
  stat_error w "package.json" = None ->
  (exists e, package_json_file w = Some (Raise e))
  \/ (exists v, package_json_file w = Some (Ok v) /\ truthy v = false) ->
  detect_test_runner w = detect_test_runner (without_manifest w)
  /\ (stat_clean w marker_names ->
      exists r, detect_test_runner w = Ok r /\ In r SUPPORTED_RUNNERS).
Proof.
  intros Hstat Hfile.
  assert (Hread : exists v, read_package_json w = Ok v /\ manifest_runner v = Ok None).
  { unfold read_package_json, package_json_exists. rewrite Hstat.
    destruct Hfile as [[e ->] | [v [-> Hv]]].
    - exists (PyDict []). split; reflexivity.
    - exists v. split; [ reflexivity | ]. unfold manifest_runner. now rewrite Hv. }
  destruct Hread as [v [Hread Hmanifest]].
  split.
  - assert (Hread' : read_package_json (without_manifest w) = Ok (PyDict [])).
    { unfold read_package_json, package_json_exists, without_manifest, stat_error.
      cbn [stat_errors package_json_file].
      unfold stat_error in Hstat. now rewrite Hstat. }
    unfold detect_test_runner. rewrite Hread, Hread'. cbn [ResultMonad.bind].
    rewrite Hmanifest.
    change (manifest_runner (PyDict [])) with (@Ok (option string) None).
    cbn [ResultMonad.bind].
    rewrite (@scan_pytest_markers_same w (without_manifest w))
      by (intros; split; reflexivity).
    rewrite (@scan_nose_markers_same w (without_manifest w))
      by (intros; split; reflexivity).
    reflexivity.
  - intro Hclean.
    apply detect_test_runner_returns with (package_json := v) (from_manifest := None);
      assumption.
Qed.

Lemma detect_ignores_unusable_manifest_witness :
  detect_test_runner empty_array_manifest = Ok "nose"
  /\ detect_test_runner empty_array_manifest
     = detect_test_runner (without_manifest empty_array_manifest).
Proof.
  split; [ reflexivity | ].
  refine (proj1 (@detect_ignores_unusable_manifest empty_array_manifest eq_refl _)).
  right. exists (PyList []). split; reflexivity.
Defined.

(** The detection reads [package.json] and the six marker files and
    nothing else: two environments that agree on them give the same
    outcome, whatever their other files and whatever [git] reports. *)
Theorem detect_reads_markers_only (w1 w2 : world) :
  package_json_file w1 = package_json_file w2 ->
  (forall p, In p ("package.json" :: marker_names) ->
             stat_error w1 p = stat_error w2 p) ->
  (forall p, In p marker_names ->
             lookup_node p (files w1) = lookup_node p (files w2)) ->
  detect_test_runner w1 = detect_test_runner w2.
Proof.
  intros Hpkg Hstat Hmarkers.
  assert (Hread : read_package_json w1 = read_package_json w2).
  { unfold read_package_json, package_json_exists.
    rewrite Hpkg, (Hstat "package.json") by now left. reflexivity. }
  assert (Hpytest : scan_pytest_markers w1 pytest_markers
                    = scan_pytest_markers w2 pytest_markers).
  { apply scan_pytest_markers_same. intros m Hm.
    pose proof (@markers_named m (or_introl Hm)) as Hnamed.
    split; [ apply Hstat; now right | now apply Hmarkers ]. }
  assert (Hnose : scan_nose_markers w1 nose_markers
                  = scan_nose_markers w2 nose_markers).
  { apply scan_nose_markers_same. intros m Hm.
    pose proof (@markers_named m (or_intror Hm)) as Hnamed.
    split; [ apply Hstat; now right | now apply Hmarkers ]. }
  unfold detect_test_runner. now rewrite Hread, Hpytest, Hnose.
Qed.

Lemma detect_reads_markers_only_witness :
  detect_test_runner nose_setup_cfg_busy = detect_test_runner nose_setup_cfg.
Proof.
  apply detect_reads_markers_only; [ reflexivity | reflexivity | ].
  intros p Hp. simpl in Hp.
  repeat (destruct Hp as [<- | Hp]; [ reflexivity | ]). contradiction.
Defined.

Lemma manifest_runner_truthy (package_json : pyval) (r : string) :
  manifest_runner package_json = Ok (Some r) -> truthy package_json = true.
Proof.
  unfold manifest_runner.
  destruct (truthy package_json); [ reflexivity | discriminate ].
Qed.

Lemma read_package_json_truthy (w : world) (package_json : pyval) :
  read_package_json w = Ok package_json ->
  truthy package_json = true ->
  package_json_file w = Some (Ok package_json).
Proof.
  unfold read_package_json, package_json_exists.
  destruct (stat_error w "package.json"); [ discriminate | ].
  destruct (package_json_file w) as [[v | e] | ];
    cbn [ResultMonad.bind negb try_except].
  - now intros [= ->].
  - intros [= <-]. discriminate.
  - intros [= <-]. discriminate.
Qed.

(** A runner that is returned has its evidence: [jest] and [mocha] come
    only from a [package.json] that was parsed to a non-empty value,
    [nose] only from a nose marker whose text contains [nosetests], and
    then neither [pytest.ini] nor [conftest.py] exists. *)
Theorem detect_runner_evidence (w : world) (r : string) :
  detect_test_runner w = Ok r ->
  In r SUPPORTED_RUNNERS
  /\ (r = "jest" \/ r = "mocha" ->
      exists package_json,
        package_json_file w = Some (Ok package_json)
        /\ truthy package_json = true
        /\ manifest_runner package_json = Ok (Some r))
  /\ (r = "nose" ->
      text_has w "nose.cfg" "nosetests" || text_has w "setup.cfg" "nosetests"
      || text_has w "tox.ini" "nosetests" = true
      /\ on_disk w "pytest.ini" = false
      /\ on_disk w "conftest.py" = false).
Proof.
  intro Hdetect.
  split; [ now apply detect_test_runner_supported with (w := w) | ].
  destruct (read_package_json w) as [pj | e] eqn:Hread.
  2: { unfold detect_test_runner in Hdetect. rewrite Hread in Hdetect.
       discriminate Hdetect. }
  destruct (manifest_runner pj) as [[r0 | ] | e] eqn:Hmanifest.
  - assert (r = r0) as ->.
    { unfold detect_test_runner, ResultMonad.bind in Hdetect.
      rewrite Hread, Hmanifest in Hdetect. now injection Hdetect. }
    split.
    + intros _. exists pj.
      pose proof (manifest_runner_truthy _ Hmanifest) as Htruthy.
      split; [ now apply read_package_json_truthy | split; assumption ].
    + intros ->. destruct (manifest_runner_value _ Hmanifest); discriminate.
  - apply (@detect_from_markers_returned w pj r Hread Hmanifest) in Hdetect.
    rewrite marker_evidence in Hdetect. symmetry in Hdetect.
    apply (f_equal (@Ok string)) in Hdetect.
    destruct (on_disk w "pytest.ini"); cbn [orb] in Hdetect;
      [ injection Hdetect as <-; split;
        [ intros [H | H]; discriminate H | intro H; discriminate H ] | ].
    destruct (on_disk w "conftest.py"); cbn [orb] in Hdetect;
      [ injection Hdetect as <-; split;
        [ intros [H | H]; discriminate H | intro H; discriminate H ] | ].
    destruct (text_has w "tox.ini" "pytest" || text_has w "setup.cfg" "pytest"
              || text_has w "pyproject.toml" "pytest");
      [ injection Hdetect as <-; split;
        [ intros [H | H]; discriminate H | intro H; discriminate H ] | ].
    destruct (text_has w "nose.cfg" "nosetests"
              || text_has w "setup.cfg" "nosetests"
              || text_has w "tox.ini" "nosetests");
      injection Hdetect as <-; split;
      try (intros [H | H]; discriminate H); try (intro H; discriminate H).
    intros _. repeat split.
  - unfold detect_test_runner, ResultMonad.bind in Hdetect.
    rewrite Hread, Hmanifest in Hdetect. discriminate.
Qed.

Lemma detect_runner_evidence_witness :
  text_has nose_setup_cfg "nose.cfg" "nosetests"
  || text_has nose_setup_cfg "setup.cfg" "nosetests"
  || text_has nose_setup_cfg "tox.ini" "nosetests" = true
  /\ on_disk nose_setup_cfg "pytest.ini" = false
  /\ on_disk nose_setup_cfg "conftest.py" = false.
Proof.
  exact (proj2 (proj2 (@detect_runner_evidence nose_setup_cfg "nose" eq_refl))
               eq_refl).
Defined.

(** ** More on the changed-file query *)

Lemma splitlines_aux_line (line rest : string) (cur : list ascii) :
  no_linebreak line = true ->
  PyStr.splitlines_aux false cur (line ++ rest)
  = PyStr.splitlines_aux false (rev (list_ascii_of_string line) ++ cur) rest.
Proof.
  revert cur. induction line as [ | a line IH]; intros cur Hline.
  - reflexivity.
  - cbn [no_linebreak] in Hline. apply andb_prop in Hline as [Ha Hline].
    apply negb_true_iff in Ha.
    cbn [append PyStr.splitlines_aux andb]. rewrite Ha.
    rewrite (IH _ Hline). cbn [list_ascii_of_string rev].
    now rewrite <- app_assoc.
Qed.

Lemma splitlines_unlines (lines : list string) :
  Forall (fun l => no_linebreak l = true) lines ->
  PyStr.splitlines (unlines lines) = lines.
Proof.
  unfold PyStr.splitlines.
  induction 1 as [ | l lines Hl Hlines IH]; [ reflexivity | ].
  cbn [unlines]. rewrite (splitlines_aux_line l _ [] Hl).
  rewrite app_nil_r.
  unfold LF at 1. cbn [append PyStr.splitlines_aux andb].
  change (PyStr.is_linebreak (ascii_of_nat 10)) with true.
  change (PyStr.is_cr (ascii_of_nat 10)) with false.
  cbv iota. rewrite IH, rev_involutive.
  now rewrite string_of_list_ascii_of_string.
Qed.

(** Names that [git] prints one per line come back as the paths of these
    names, in order; the exit code and the error output play no part. *)
Theorem changed_files_round_trip
  (w : world) (names : list string) (code : Z) (err : string) :
  Forall (fun n => plain_name n = true) names ->
  git_diff w = Ok (code, unlines names, err) ->
  get_git_changed_files w = Ok (map PyPath.of_string names).
Proof.
  intros Hnames Hgit.
  unfold get_git_changed_files. rewrite Hgit.
  cbn [ResultMonad.bind try_except].
  rewrite splitlines_unlines.
  - f_equal. clear Hgit.
    induction Hnames as [ | n names Hn Hnames IH]; [ reflexivity | ].
    unfold plain_name in Hn.
    apply andb_prop in Hn as [Hn Hstrip]. apply andb_prop in Hn as [Htruthy _].
    apply String.eqb_eq in Hstrip.
    cbn [filter]. rewrite Hstrip, Htruthy. cbn [map].
    now rewrite ?Hstrip, IH.
  - eapply Forall_impl; [ | exact Hnames ].
    intros n Hn. unfold plain_name in Hn.
    apply andb_prop in Hn as [Hn _]. now apply andb_prop in Hn as [_ Hn].
Qed.

Lemma changed_files_round_trip_witness :
  get_git_changed_files
    (mkWorld None [] (Ok (1%Z, unlines ["src/foo.py"; "docs/read me.md"], "warning")))
  = Ok [PyPath.of_string "src/foo.py"; PyPath.of_string "docs/read me.md"].
Proof.
  apply (@changed_files_round_trip _ ["src/foo.py"; "docs/read me.md"] 1%Z "warning").
  - repeat constructor.
  - reflexivity.
Defined.

(** ** More on the mappers *)

Lemma drop_without_char (c : ascii) (i : nat) (s : string) :
  has_char c s = false -> has_char c (PyStr.drop i s) = false.
Proof.
  revert i. induction s as [ | a s IH]; intros [ | i] H; try exact H.
  cbn [PyStr.drop]. cbn [has_char] in H.
  apply orb_false_elim in H as [_ Hs]. now apply IH.
Qed.

Lemma suffix_without_sep (s : string) :
  has_char PyPath.sep (PyPath.suffix (PyPath.of_string s)) = false.
Proof.
  unfold PyPath.suffix.
  destruct (PyPath.suffix_index (PyPath.of_string s)); [ | reflexivity ].
  apply drop_without_char, name_without_sep.
Qed.

Lemma keep_dot_test (stem suffix : string) :
  PyPath.keep_component (stem ++ ".test" ++ suffix) = true.
Proof.
  unfold PyPath.keep_component.
  destruct stem as [ | a [ | b stem]]; cbn [PyStr.truthy append String.eqb andb];
    [ reflexivity | | ]; now destruct (Ascii.eqb a ".").
Qed.

Lemma dot_test_without_sep (s : string) :
  has_char PyPath.sep
    (PyPath.stem (PyPath.of_string s) ++ ".test" ++ PyPath.suffix (PyPath.of_string s))
  = false.
Proof.
  rewrite !has_char_app, stem_without_sep, suffix_without_sep. reflexivity.
Qed.

Lemma js_tests_loop_targets (w : world) (names : list string)
      (tests out : list string) :
  js_tests_loop w
    (filter (fun f => str_in (PyPath.suffix f) JS_TEST_EXTENSIONS)
            (map PyPath.of_string names))
    tests
  = Ok out ->
  out = tests ++ flat_map (js_targets w) (map PyPath.of_string names).
Proof.
  revert tests. induction names as [ | s names IH]; intro tests.
  - simpl. intros [= <-]. now rewrite app_nil_r.
  - cbn [map filter flat_map]. unfold js_targets at 1.
    change JS_TEST_EXTENSIONS with [".js"; ".jsx"; ".ts"; ".tsx"].
    destruct (str_in (PyPath.suffix (PyPath.of_string s))
                     [".js"; ".jsx"; ".ts"; ".tsx"]);
      cbn [negb]; [ | apply IH ].
    cbn [js_tests_loop]. unfold is_js_test.
    destruct (PyStr.contains ".test." (PyPath.name (PyPath.of_string s))
              || PyStr.startswith (PyPath.stem (PyPath.of_string s)) "test_"
              || PyStr.endswith (PyPath.stem (PyPath.of_string s)) "_test"
              || str_in "__tests__" (PyPath.parts (PyPath.of_string s))
              || str_in "tests" (PyPath.parts (PyPath.of_string s))).
    + intro H. apply IH in H as ->. now rewrite <- app_assoc.
    + match goal with
      | |- context [path_exists w ?c] =>
          destruct (path_exists w c) as [found | e] eqn:Hc; [ | discriminate ]
      end.
      apply path_exists_value in Hc as [_ ->]. cbn [ResultMonad.bind].
      rewrite (tests_child_to_string _ (dot_test_without_sep s)
                                     (keep_dot_test _ _)).
      cbn [filter].
      destruct (on_disk w
                  ("tests/" ++ PyPath.stem (PyPath.of_string s) ++ ".test"
                   ++ PyPath.suffix (PyPath.of_string s)));
        intro H; apply IH in H as ->; now rewrite <- ?app_assoc.
Qed.

Lemma collect_js_tests_targets (w : world) (names : list string)
      (raw : list string) :
  collect_js_tests w (map PyPath.of_string names) = Ok raw ->
  raw = flat_map (js_targets w) (map PyPath.of_string names).
Proof.
  unfold collect_js_tests. intro H. now apply js_tests_loop_targets in H.
Qed.

Lemma map_python_tests_flat_map (w : world) (names : list string)
      (tests : list string) :
  map_python_tests w (map PyPath.of_string names) = Ok tests ->
  tests = PyDict.keys (PyDict.fromkeys
            (flat_map (python_targets w) (map PyPath.of_string names))).
Proof.
  unfold map_python_tests, ResultMonad.bind.
  destruct (collect_python_tests w (map PyPath.of_string names))
    as [raw | e] eqn:Hraw; [ | discriminate ].
  apply collect_python_tests_targets in Hraw as ->. now intros [= <-].
Qed.

Lemma map_js_tests_flat_map (w : world) (names : list string)
      (tests : list string) :
  map_js_tests w (map PyPath.of_string names) = Ok tests ->
  tests = PyDict.keys (PyDict.fromkeys
            (flat_map (js_targets w) (map PyPath.of_string names))).
Proof.
  unfold map_js_tests, ResultMonad.bind.
  destruct (collect_js_tests w (map PyPath.of_string names))
    as [raw | e] eqn:Hraw; [ | discriminate ].
  apply collect_js_tests_targets in Hraw as ->. now intros [= <-].
Qed.

(** For changed files given by their names, the JavaScript mapper returns,
    once each and in first-seen order, the targets of the files with
    extension [.js], [.jsx], [.ts] or [.tsx]: the file itself when it looks
    like a test, and otherwise [tests/<stem>.test<extension>], with the
    extension of the changed file, when that exists. The mapper returns
    when [exists()] does not raise. *)
Theorem map_js_tests_targets (w : world) (names : list string) :
  (forall tests,
      map_js_tests w (map PyPath.of_string names) = Ok tests ->
      first_seen_order
        (flat_map (js_targets w) (map PyPath.of_string names)) tests)
  /\ (never_stat_error w ->
      exists tests, map_js_tests w (map PyPath.of_string names) = Ok tests).
Proof.
  split.
  - intros tests Htests. apply map_js_tests_flat_map in Htests as ->.
    apply fromkeys_first_seen.
  - intro Hclean. unfold map_js_tests, ResultMonad.bind.
    destruct (collect_js_tests_total Hclean (map PyPath.of_string names))
      as [raw ->].
    eauto.
Qed.

Lemma map_js_tests_targets_witness :
  flat_map (js_targets two_tests_on_disk) js_changes
    = ["a.test.js"; "tests/b.test.ts"; "a.test.js"; "tests/b.test.ts"]
  /\ map_js_tests two_tests_on_disk js_changes
     = Ok ["a.test.js"; "tests/b.test.ts"]
  /\ NoDup ["a.test.js"; "tests/b.test.ts"].
Proof.
  split; [ reflexivity | split; [ reflexivity | ] ].
  exact (proj1 (proj1 (map_js_tests_targets two_tests_on_disk
                         ["a.test.js"; "src/b.ts"; "a.test.js"; "tests/b.test.ts"])
                      _ eq_refl)).
Defined.

(** *** The extension of a target *)

Lemma append_assoc (a b c : string) : ((a ++ b) ++ c = a ++ b ++ c)%string.
Proof. induction a as [ | x a IH]; simpl; now rewrite ?IH. Qed.

Lemma list_ascii_app (a b : string) :
  list_ascii_of_string (a ++ b) = list_ascii_of_string a ++ list_ascii_of_string b.
Proof. induction a as [ | x a IH]; simpl; now rewrite ?IH. Qed.

Lemma string_of_list_app (l1 l2 : list ascii) :
  string_of_list_ascii (l1 ++ l2)
  = (string_of_list_ascii l1 ++ string_of_list_ascii l2)%string.
Proof. induction l1 as [ | x l1 IH]; simpl; now rewrite ?IH. Qed.

Lemma rev_string_app (a b : string) :
  PyStr.rev_string (a ++ b) = (PyStr.rev_string b ++ PyStr.rev_string a)%string.
Proof.
  unfold PyStr.rev_string. now rewrite list_ascii_app, rev_app_distr, string_of_list_app.
Qed.

Lemma prefix_app (a b : string) : String.prefix a (a ++ b) = true.
Proof.
  induction a as [ | x a IH]; [ now destruct b | ].
  cbn [append String.prefix].
  destruct (ascii_dec x x) as [_ | Hne]; [ exact IH | now elim Hne ].
Qed.

Lemma endswith_app (a b : string) : PyStr.endswith (a ++ b) b = true.
Proof.
  unfold PyStr.endswith. rewrite rev_string_app. apply prefix_app.
Qed.

Lemma take_drop (i : nat) (s : string) : (PyStr.take i s ++ PyStr.drop i s)%string = s.
Proof.
  revert i. induction s as [ | a s IH]; intros [ | i]; try reflexivity.
  cbn [PyStr.take PyStr.drop append]. now rewrite IH.
Qed.

Lemma join_ends_with_last (tail : list string) :
  tail <> [] -> exists pre, PyStr.join "/" tail = (pre ++ last tail "")%string.
Proof.
  induction tail as [ | x tail IH]; [ congruence | intros _ ].
  destruct tail as [ | y tail]; [ now exists "" | ].
  destruct IH as [pre Hpre]; [ discriminate | ].
  exists (x ++ "/" ++ pre)%string.
  change (PyStr.join "/" (x :: y :: tail))
    with (x ++ "/" ++ PyStr.join "/" (y :: tail))%string.
  change (last (x :: y :: tail) "") with (last (y :: tail) "").
  now rewrite Hpre, !append_assoc.
Qed.

Lemma to_string_ends_with_suffix (p : Path) :
  PyPath.suffix p <> "" ->
  PyStr.endswith (PyPath.to_string p) (PyPath.suffix p) = true.
Proof.
  intro Hsuffix.
  assert (Hname : exists pre, PyPath.name p = (pre ++ PyPath.suffix p)%string).
  { unfold PyPath.suffix in *.
    destruct (PyPath.suffix_index p) as [i | ]; [ | congruence ].
    exists (PyStr.take i (PyPath.name p)). now rewrite take_drop. }
  assert (Htail : path_tail p <> []).
  { intro Hnil. apply Hsuffix.
    unfold PyPath.suffix, PyPath.suffix_index, PyPath.name. now rewrite Hnil. }
  destruct Hname as [stem Hname].
  destruct (join_ends_with_last Htail) as [pre Hpre].
  assert (Hstr : PyPath.to_string p
                 = ((path_root p ++ pre ++ stem) ++ PyPath.suffix p)%string).
  { unfold PyPath.to_string.
    destruct (path_tail p) as [ | x tail] eqn:Ht; [ congruence | ].
    unfold PyPath.name in Hname. rewrite Ht in Hname.
    rewrite Hpre, Hname.
    destruct (path_root p); now rewrite !append_assoc. }
  rewrite Hstr. apply endswith_app.
Qed.

(** Every target of the Python mapper ends in [.py], and every target of
    the JavaScript mapper in one of [.js], [.jsx], [.ts] and [.tsx]: the
    runner of one family is never handed a file of the other. *)
Theorem mapped_tests_extension (w : world) (names : list string) (x : string) :
  (forall tests,
      map_python_tests w (map PyPath.of_string names) = Ok tests ->
      In x tests -> PyStr.endswith x ".py" = true)
  /\ (forall tests,
        map_js_tests w (map PyPath.of_string names) = Ok tests ->
        In x tests -> existsb (PyStr.endswith x) JS_TEST_EXTENSIONS = true).
Proof.
  split; intros tests Htests Hx.
  - apply map_python_tests_flat_map in Htests as ->.
    apply (proj1 (proj1 (proj2 (fromkeys_first_seen _)) x)) in Hx.
    apply in_flat_map in Hx as [file [_ Hx]].
    unfold python_targets in Hx.
    destruct (String.eqb_spec (PyPath.suffix file) ".py") as [Hsuf | _];
      cbn [negb] in Hx; [ | contradiction ].
    destruct (str_in "tests" (PyPath.parts file)
              || PyStr.startswith (PyPath.stem file) "test_"
              || PyStr.endswith (PyPath.stem file) "_test").
    + destruct Hx as [<- | []]. rewrite <- Hsuf.
      apply to_string_ends_with_suffix. rewrite Hsuf. discriminate.
    + apply filter_In in Hx as [[<- | [<- | []]] _].
      * change ("tests/test_" ++ PyPath.stem file ++ ".py")%string
          with ("tests/test_" ++ (PyPath.stem file ++ ".py"))%string.
        rewrite <- !append_assoc. apply endswith_app.
      * change "_test.py" with ("_test" ++ ".py")%string.
        rewrite <- !append_assoc. apply endswith_app.
  - apply map_js_tests_flat_map in Htests as ->.
    apply (proj1 (proj1 (proj2 (fromkeys_first_seen _)) x)) in Hx.
    apply in_flat_map in Hx as [file [_ Hx]].
    unfold js_targets in Hx.
    destruct (str_in (PyPath.suffix file) [".js"; ".jsx"; ".ts"; ".tsx"])
      eqn:Hsuf; cbn [negb] in Hx; [ | contradiction ].
    assert (Hends : PyStr.endswith x (PyPath.suffix file) = true).
    { destruct (PyStr.contains ".test." (PyPath.name file)
                || PyStr.startswith (PyPath.stem file) "test_"
                || PyStr.endswith (PyPath.stem file) "_test"
                || str_in "__tests__" (PyPath.parts file)
                || str_in "tests" (PyPath.parts file)).
      - destruct Hx as [<- | []]. apply to_string_ends_with_suffix.
        intro Hempty. rewrite Hempty in Hsuf. discriminate Hsuf.
      - apply filter_In in Hx as [[<- | []] _].
        rewrite <- !append_assoc. apply endswith_app. }
    apply existsb_exists. exists (PyPath.suffix file). split; [ | exact Hends ].
    now apply str_in_In.
Qed.

Lemma mapped_tests_extension_witness :
  PyStr.endswith "tests/test_foo.py" ".py" = true.
Proof.
  apply (proj1 (mapped_tests_extension foo_changed ["src/foo.py"] "tests/test_foo.py")
               ["tests/test_foo.py"] eq_refl).
  now left.
Defined.

(** *** Mapping a concatenation *)

Lemma unseen_same_seen (l seen1 seen2 : list string) :
  (forall x, In x seen1 <-> In x seen2) -> unseen seen1 l = unseen seen2 l.
Proof.
  revert seen1 seen2. induction l as [ | a l IH]; intros seen1 seen2 Hsame;
    [ reflexivity | ].
  cbn [unseen].
  assert (Ha : str_in a seen1 = str_in a seen2).
  { destruct (str_in a seen2) eqn:H2.
    - apply str_in_In. apply Hsame. now apply str_in_In.
    - apply str_in_false. intro H. apply str_in_false in H2. apply H2.
      now apply Hsame. }
  rewrite Ha. destruct (str_in a seen2); [ now apply IH | ].
  f_equal. apply IH. intro x. rewrite !in_app_iff, Hsame. tauto.
Qed.

Lemma unseen_app (l1 l2 seen : list string) :
  unseen seen (l1 ++ l2) = unseen seen l1 ++ unseen (seen ++ l1) l2.
Proof.
  revert seen. induction l1 as [ | a l1 IH]; intro seen.
  - cbn. now rewrite app_nil_r.
  - cbn [app unseen]. destruct (str_in a seen) eqn:Ha.
    + rewrite IH. f_equal. apply unseen_same_seen.
      intro x. rewrite !in_app_iff. cbn [In].
      apply str_in_In in Ha. split; [ tauto | ].
      intros [H | [<- | H]]; tauto.
    + rewrite IH. cbn [app]. f_equal. now rewrite <- app_assoc.
Qed.

Lemma unseen_of_unseen (l seen inner : list string) :
  (forall x, In x inner -> In x seen) ->
  unseen seen (unseen inner l) = unseen seen l.
Proof.
  revert seen inner. induction l as [ | a l IH]; intros seen inner Hsub;
    [ reflexivity | ].
  cbn [unseen]. destruct (str_in a inner) eqn:Hin.
  - apply str_in_In in Hin. apply Hsub, str_in_In in Hin. rewrite Hin.
    now apply IH.
  - cbn [unseen]. destruct (str_in a seen) eqn:Hseen.
    + apply IH. intros x Hx. apply in_app_iff in Hx as [Hx | [<- | []]].
      * now apply Hsub.
      * now apply str_in_In.
    + f_equal. apply IH. intros x Hx. rewrite in_app_iff in *. cbn [In] in *.
      destruct Hx as [Hx | Hx]; [ left; now apply Hsub | now right ].
Qed.

Lemma unseen_all_seen (l seen : list string) :
  (forall x, In x l -> In x seen) -> unseen seen l = [].
Proof.
  induction l as [ | a l IH]; intro Hsub; [ reflexivity | ].
  cbn [unseen].
  assert (Ha : str_in a seen = true) by (apply str_in_In, Hsub; now left).
  rewrite Ha. apply IH. intros x Hx. apply Hsub. now right.
Qed.

Lemma fromkeys_app (l1 l2 : list string) :
  PyDict.keys (PyDict.fromkeys (l1 ++ l2))
  = PyDict.keys (PyDict.fromkeys
      (PyDict.keys (PyDict.fromkeys l1) ++ PyDict.keys (PyDict.fromkeys l2))).
Proof.
  rewrite !keys_fromkeys, !unseen_app. cbn [app].
  rewrite (unseen_of_unseen l1 [] []) by auto.
  f_equal.
  rewrite (unseen_of_unseen l2 (unseen [] l1) []) by (intros x []).
  apply unseen_same_seen. intro x. rewrite unseen_In. cbn [In]. tauto.
Qed.

Lemma fromkeys_twice (l : list string) :
  PyDict.keys (PyDict.fromkeys (l ++ l)) = PyDict.keys (PyDict.fromkeys l).
Proof.
  rewrite !keys_fromkeys, unseen_app. cbn [app].
  rewrite (unseen_all_seen l l) by auto. apply app_nil_r.
Qed.

Lemma append_existing_acc (w : world) (candidates : list Path) (tests : list string) :
  append_existing w candidates tests
  = (out <- append_existing w candidates [] ;; Ok (tests ++ out)).
Proof.
  revert tests. induction candidates as [ | c candidates IH]; intro tests.
  - cbn. now rewrite app_nil_r.
  - cbn [append_existing].
    destruct (path_exists w c) as [[ | ] | e]; cbn [ResultMonad.bind];
      [ | apply IH | reflexivity ].
    rewrite IH, (IH ([] ++ _)).
    destruct (append_existing w candidates []); cbn [ResultMonad.bind];
      [ now rewrite <- app_assoc | reflexivity ].
Qed.

Lemma python_tests_loop_acc (w : world) (files : list Path) (tests : list string) :
  python_tests_loop w files tests
  = (out <- python_tests_loop w files [] ;; Ok (tests ++ out)).
Proof.
  revert tests. induction files as [ | f files IH]; intro tests.
  - cbn. now rewrite app_nil_r.
  - cbn [python_tests_loop]. destruct (is_python_test f).
    + rewrite IH, (IH ([] ++ _)).
      destruct (python_tests_loop w files []); cbn [ResultMonad.bind];
        [ now rewrite <- app_assoc | reflexivity ].
    + rewrite (append_existing_acc w _ tests).
      destruct (append_existing w _ []) as [found | e]; cbn [ResultMonad.bind];
        [ | reflexivity ].
      rewrite IH, (IH found).
      destruct (python_tests_loop w files []); cbn [ResultMonad.bind];
        [ now rewrite <- app_assoc | reflexivity ].
Qed.

Lemma js_tests_loop_acc (w : world) (files : list Path) (tests : list string) :
  js_tests_loop w files tests
  = (out <- js_tests_loop w files [] ;; Ok (tests ++ out)).
Proof.
  revert tests. induction files as [ | f files IH]; intro tests.
  - cbn. now rewrite app_nil_r.
  - cbn [js_tests_loop]. destruct (is_js_test f).
    + rewrite IH, (IH ([] ++ _)).
      destruct (js_tests_loop w files []); cbn [ResultMonad.bind];
        [ now rewrite <- app_assoc | reflexivity ].
    + destruct (path_exists w _) as [[ | ] | e]; cbn [ResultMonad.bind];
        [ | apply IH | reflexivity ].
      rewrite IH, (IH ([] ++ _)).
      destruct (js_tests_loop w files []); cbn [ResultMonad.bind];
        [ now rewrite <- app_assoc | reflexivity ].
Qed.

Lemma python_tests_loop_app (w : world) (fa fb : list Path) (tests : list string) :
  python_tests_loop w (fa ++ fb) tests
  = (ta <- python_tests_loop w fa tests ;; python_tests_loop w fb ta).
Proof.
  revert tests. induction fa as [ | f fa IH]; intro tests; [ reflexivity | ].
  cbn [app python_tests_loop]. destruct (is_python_test f); [ apply IH | ].
  destruct (append_existing w _ tests); cbn [ResultMonad.bind];
    [ apply IH | reflexivity ].
Qed.

Lemma js_tests_loop_app (w : world) (fa fb : list Path) (tests : list string) :
  js_tests_loop w (fa ++ fb) tests
  = (ta <- js_tests_loop w fa tests ;; js_tests_loop w fb ta).
Proof.
  revert tests. induction fa as [ | f fa IH]; intro tests; [ reflexivity | ].
  cbn [app js_tests_loop]. destruct (is_js_test f); [ apply IH | ].
  destruct (path_exists w _) as [[ | ] | e]; cbn [ResultMonad.bind];
    [ apply IH | apply IH | reflexivity ].
Qed.

Lemma collect_python_tests_app (w : world) (a b : list Path) :
  collect_python_tests w (a ++ b)
  = (ra <- collect_python_tests w a ;;
     rb <- collect_python_tests w b ;;
     Ok (ra ++ rb)).
Proof.
  unfold collect_python_tests. rewrite filter_app, python_tests_loop_app.
  destruct (python_tests_loop w _ []) as [ra | e]; cbn [ResultMonad.bind];
    [ | reflexivity ].
  apply python_tests_loop_acc.
Qed.

Lemma collect_js_tests_app (w : world) (a b : list Path) :
  collect_js_tests w (a ++ b)
  = (ra <- collect_js_tests w a ;;
     rb <- collect_js_tests w b ;;
     Ok (ra ++ rb)).
Proof.
  unfold collect_js_tests. rewrite filter_app, js_tests_loop_app.
  destruct (js_tests_loop w _ []) as [ra | e]; cbn [ResultMonad.bind];
    [ | reflexivity ].
  apply js_tests_loop_acc.
Qed.

(** The targets of two lists of changes put end to end are the targets of
    the first followed by those of the second, without the ones already
    there, and the run raises what the first of the two runs to raise
    raises; in particular a change that is listed twice counts once. *)
Theorem mapped_tests_concat (w : world) (a b : list Path) :
  map_python_tests w (a ++ b)
    = (ta <- map_python_tests w a ;;
       tb <- map_python_tests w b ;;
       Ok (PyDict.keys (PyDict.fromkeys (ta ++ tb))))
  /\ map_js_tests w (a ++ b)
    = (ta <- map_js_tests w a ;;
       tb <- map_js_tests w b ;;
       Ok (PyDict.keys (PyDict.fromkeys (ta ++ tb))))
  /\ map_python_tests w (a ++ a) = map_python_tests w a
  /\ map_js_tests w (a ++ a) = map_js_tests w a.
Proof.
  unfold map_python_tests, map_js_tests.
  rewrite !collect_python_tests_app, !collect_js_tests_app.
  destruct (collect_python_tests w a) as [pa | e1];
    destruct (collect_python_tests w b) as [pb | e2];
    destruct (collect_js_tests w a) as [ja | e3];
    destruct (collect_js_tests w b) as [jb | e4];
    cbn [ResultMonad.bind];
    repeat split; f_equal; auto using fromkeys_app, fromkeys_twice.
Qed.

(** ** More on the focus commands *)








Lemma path_exists_same_files (w1 w2 : world) (p : Path) :
  files w1 = files w2 -> stat_errors w1 = stat_errors w2 ->
  path_exists w1 p = path_exists w2 p.
Proof. intros H1 H2. unfold path_exists, stat_error. now rewrite H1, H2. Qed.

Lemma append_existing_same_files (w1 w2 : world) (candidates : list Path)
      (tests : list string) :
  files w1 = files w2 -> stat_errors w1 = stat_errors w2 ->
  append_existing w1 candidates tests = append_existing w2 candidates tests.
Proof.
  intros H1 H2. revert tests.
  induction candidates as [ | c candidates IH]; intro tests; [ reflexivity | ].
  cbn [append_existing]. rewrite (path_exists_same_files w1 w2 c H1 H2).
  destruct (path_exists w2 c) as [[ | ] | e]; cbn [ResultMonad.bind];
    [ apply IH | apply IH | reflexivity ].
Qed.

Lemma python_tests_loop_same_files (w1 w2 : world) (fs : list Path)
      (tests : list string) :
  files w1 = files w2 -> stat_errors w1 = stat_errors w2 ->
  python_tests_loop w1 fs tests = python_tests_loop w2 fs tests.
Proof.
  intros H1 H2. revert tests.
  induction fs as [ | f fs IH]; intro tests; [ reflexivity | ].
  cbn [python_tests_loop]. destruct (is_python_test f); [ apply IH | ].
  rewrite (append_existing_same_files w1 w2 _ tests H1 H2).
  destruct (append_existing w2 _ tests); cbn [ResultMonad.bind];
    [ apply IH | reflexivity ].
Qed.

Lemma js_tests_loop_same_files (w1 w2 : world) (fs : list Path)
      (tests : list string) :
  files w1 = files w2 -> stat_errors w1 = stat_errors w2 ->
  js_tests_loop w1 fs tests = js_tests_loop w2 fs tests.
Proof.
  intros H1 H2. revert tests.
  induction fs as [ | f fs IH]; intro tests; [ reflexivity | ].
  cbn [js_tests_loop]. destruct (is_js_test f); [ apply IH | ].
  rewrite (path_exists_same_files w1 w2 _ H1 H2).
  destruct (path_exists w2 _) as [[ | ] | e]; cbn [ResultMonad.bind];
    [ apply IH | apply IH | reflexivity ].
Qed.

Lemma select_targets_same (w1 w2 : world) (runner : string) :
  files w1 = files w2 -> stat_errors w1 = stat_errors w2 ->
  git_diff w1 = git_diff w2 ->
  select_targets w1 runner = select_targets w2 runner.
Proof.
  intros Hfiles Hstat Hgit.
  unfold select_targets, find_changed_python_tests, find_changed_js_tests,
    get_git_changed_files, map_python_tests, map_js_tests,
    collect_python_tests, collect_js_tests.
  rewrite Hgit.
  destruct (str_in runner ["pytest"; "nose"]);
    destruct (try_except _ _) as [changed | e]; cbn [ResultMonad.bind];
    try reflexivity.
  - now rewrite (python_tests_loop_same_files w1 w2 _ [] Hfiles Hstat).
  - now rewrite (js_tests_loop_same_files w1 w2 _ [] Hfiles Hstat).
Qed.

Lemma run_focus_same (w1 w2 : world) (args : focus_args) (runner : string)
      (shown : list event) :
  files w1 = files w2 -> stat_errors w1 = stat_errors w2 ->
  git_diff w1 = git_diff w2 ->
  run_focus w1 args runner shown = run_focus w2 args runner shown.
Proof.
  intros Hfiles Hstat Hgit. unfold run_focus, Log.bind, Log.lift.
  now rewrite (select_targets_same w1 w2 runner Hfiles Hstat Hgit).
Qed.

(** With a forced runner the focus commands do not look at [package.json]:
    whatever it holds, even what makes the detection raise, the run is the
    same. For [focus_command] this needs [--auto] to be absent. *)
Theorem forced_runner_ignores_manifest
  (w : world) (args : focus_args) (pkg : option (result pyval)) :
  opt_truthy (arg_runner args) || arg_pytest args = true ->
  (arg_auto args = false ->
   run (focus_command (with_manifest pkg w) args) = run (focus_command w args))
  /\ run (Legacy.cmd_focus (with_manifest pkg w) args)
     = run (Legacy.cmd_focus w args).
Proof.
  intro Hforced. split; [ intro Hauto | ].
  - unfold run, focus_command, Log.bind.
    pose proof (forced_runner_wins_without_auto args Hforced Hauto) as Hsel.
    unfold run in Hsel. rewrite !Hsel.
    destruct (if arg_pytest args then Some "pytest" else arg_runner args)
      as [r | ]; [ | reflexivity ].
    destruct (str_in r SUPPORTED_RUNNERS); [ | reflexivity ].
    now apply run_focus_same.
  - unfold run, Legacy.cmd_focus, Log.bind.
    pose proof (legacy_forced_runner_wins args Hforced) as Hsel.
    unfold run in Hsel. rewrite !Hsel.
    destruct (if opt_truthy (arg_runner args) then arg_runner args
              else Some "pytest") as [r | ]; [ | reflexivity ].
    destruct (str_in r SUPPORTED_RUNNERS); [ | reflexivity ].
    now apply run_focus_same.
Qed.

Lemma forced_runner_ignores_manifest_witness :
  run (focus_command array_manifest_foo_changed no_options)
    = (Raise AttributeError, [])
  /\ run (focus_command array_manifest_foo_changed runner_pytest)
     = run (focus_command foo_changed runner_pytest)
  /\ run (focus_command foo_changed runner_pytest)
     = (Ok tt, [PrintRunning "pytest" ["tests/test_foo.py"];
                CmdRun ["pytest"; "-q"; "tests/test_foo.py"] "out"]).
Proof.
  split; [ reflexivity | split; [ | reflexivity ] ].
  exact (proj1 (@forced_runner_ignores_manifest foo_changed runner_pytest
                  (Some (Ok (PyList [PyInt 1%Z]))) eq_refl) eq_refl).
Defined.

Lemma detector_consulted_only_if_witness :
  arg_auto no_options = true
  \/ opt_truthy (arg_runner no_options) || arg_pytest no_options = false.
Proof.
  apply (@detector_consulted_only_if no_options (Ok "jest") (Ok "mocha")).
  left. intro H. cbv in H. discriminate H.
Defined.
